(** * FlutterMCP: the weather tool server and its command-line client

    A shallow embedding of [weather/weather.py] (the two tool handlers
    [get_alerts] and [get_forecast]) and of [mcp-client/client.py] (the
    read-dispatch-print loop of [main]), with the properties the
    specification states about them.

    Layout:
    - [Str]     : the [str] methods the two programs call;
    - [Py]      : Python values as [json] decoding produces them, truthiness,
                  [in], subscripting, [dict.get], [str()];
    - [Weather] : [_get_json], [_format_alert], [get_alerts], [get_forecast]
                  over a log of the requests made;
    - [Client]  : one iteration of the loop of [main], and the loop;
    - [Spec]    : the words of the specification (blocks, lines, missing
                  members) as definitions of their own;
    - [Sample]  : concrete bodies, services and an interpreter to run the
                  handlers and the loop on;
    - [Shape], [Cases], [Startup], [Scripts] : further vocabulary and
                  inputs, and the start of [main] before its loop;
    - [StrFacts], [WeatherFacts], [ClientFacts] : the properties;
    - [WeatherMore], [StrMore], [ClientMore] : further properties of the
                  handlers, of the loop and of [main]. *)

From Stdlib Require Import String Ascii List ZArith NArith Lia Bool.
From Stdlib Require Import PrimFloat SpecFloat FloatOps DecimalString.
Import ListNotations.
Open Scope string_scope.
Set Warnings "-register-all".

(* ------------------------------------------------------------------ *)
(** * Strings *)

(** A Python [str] is a sequence of code points.  The model keeps the code
    points below 256, one [ascii] each: every literal of the two source
    files is in that range, and [len], [strip], [split], [lower],
    [startswith] and [in] are then the functions below. *)
Module Str.

(** [c.isspace()] for a code point below 256; [strip] and [split] use it. *)
Definition is_space (c : ascii) : bool :=
  existsb (N.eqb (N_of_ascii c)) [9; 10; 11; 12; 13; 28; 29; 30; 31; 32; 133; 160]%N.

(** [c.lower()] for a code point below 256: A-Z, and U+00C0..U+00DE but
    for the multiplication sign U+00D7, move up by 32. *)
Definition lower_char (c : ascii) : ascii :=
  let n := N_of_ascii c in
  if ((65 <=? n) && (n <=? 90) || (192 <=? n) && (n <=? 222) && negb (n =? 215))%N
  then ascii_of_N (n + 32) else c.

Fixpoint lower (s : string) : string :=
  match s with
  | EmptyString => EmptyString
  | String c s' => String (lower_char c) (lower s')
  end.

Fixpoint lstrip (s : string) : string :=
  match s with
  | EmptyString => EmptyString
  | String c s' => if is_space c then lstrip s' else s
  end.

Fixpoint rstrip (s : string) : string :=
  match s with
  | EmptyString => EmptyString
  | String c s' =>
      match rstrip s' with
      | EmptyString => if is_space c then EmptyString else String c EmptyString
      | r => String c r
      end
  end.

(** [s.strip()] *)
Definition strip (s : string) : string := rstrip (lstrip s).

Fixpoint all_space (s : string) : bool :=
  match s with
  | EmptyString => true
  | String c s' => is_space c && all_space s'
  end.

(** The longest prefix without whitespace, and what follows it. *)
Fixpoint take_token (s : string) : string :=
  match s with
  | EmptyString => EmptyString
  | String c s' => if is_space c then EmptyString else String c (take_token s')
  end.

Fixpoint drop_token (s : string) : string :=
  match s with
  | EmptyString => EmptyString
  | String c s' => if is_space c then s else drop_token s'
  end.

(** [s.split()]: skip whitespace, read a token, repeat.  Each round
    consumes a character, so [length s] rounds are enough. *)
Fixpoint split_rounds (n : nat) (s : string) : list string :=
  match n with
  | O => []
  | S n' =>
      match lstrip s with
      | EmptyString => []
      | s1 => take_token s1 :: split_rounds n' (drop_token s1)
      end
  end.

Definition split (s : string) : list string := split_rounds (String.length s) s.

(** [s.split(maxsplit=1)]: one token, then the rest of the line with the
    whitespace before it removed (and nothing when only whitespace is left). *)
Definition split_max1 (s : string) : list string :=
  match lstrip s with
  | EmptyString => []
  | s1 =>
      match lstrip (drop_token s1) with
      | EmptyString => [take_token s1]
      | rest => [take_token s1; rest]
      end
  end.

(** [p in s] for two strings: [p] occurs in [s]. *)
Fixpoint contains (p s : string) : bool :=
  String.prefix p s ||
  match s with
  | EmptyString => false
  | String _ s' => contains p s'
  end.

(** The characters of [s], each as a string: what iterating over a [str]
    yields. *)
Fixpoint chars (s : string) : list string :=
  match s with
  | EmptyString => []
  | String c s' => String c EmptyString :: chars s'
  end.

(** The first [n] characters: the slice [s[:n]]. *)
Fixpoint take (n : nat) (s : string) : string :=
  match n, s with
  | S n', String c s' => String c (take n' s')
  | _, _ => EmptyString
  end.

Definition nl : string := String "010"%char EmptyString.

End Str.

(* ------------------------------------------------------------------ *)
(** * Python values *)

Module Py.

(** What [Response.json()] can return, and what a tool can be called with:
    [None], [bool], [int], [float], [str], [list], and [dict] with string
    keys in insertion order. *)
Inductive value : Type :=
| VNone
| VBool (b : bool)
| VInt (z : Z)
| VFloat (f : float)
| VStr (s : string)
| VList (l : list value)
| VDict (d : list (string * value)).

(** The exception classes the handlers can meet.  All are subclasses of
    [Exception]. *)
Inductive exn : Type :=
| TypeError
| AttributeError
| KeyError
| ValueError
| OverflowError.

(** The built-in functions of the interpreter that the programs call on
    arbitrary input and that have no definition in the repository. *)
Class Builtins : Type := {
  (** [float(s)] for a [str]: the number, or the message of the
      [ValueError] *)
  float_of_str : string -> string + float;
  (** [str(x)] for a [float] *)
  str_of_float : float -> string;
  (** [repr(s)] for a [str] *)
  repr_of_str : string -> string;
  (** [s.upper()]: U+00B5 and U+00FF have their upper case above
      U+00FF, so the method is not a function on the strings of [Str] *)
  upper : string -> string
}.

(** Lookup of a key in a [dict]. *)
Fixpoint lookup (k : string) (d : list (string * value)) : option value :=
  match d with
  | [] => None
  | (k', v) :: d' => if String.eqb k k' then Some v else lookup k d'
  end.

(** [bool(v)] *)
Definition truthy (v : value) : bool :=
  match v with
  | VNone => false
  | VBool b => b
  | VInt z => negb (z =? 0)%Z
  | VFloat f => negb (PrimFloat.eqb f PrimFloat.zero)
  | VStr s => negb (String.eqb s "")
  | VList l => match l with [] => false | _ => true end
  | VDict d => match d with [] => false | _ => true end
  end.

Definition is_str (k : string) (v : value) : bool :=
  match v with
  | VStr s => String.eqb s k
  | _ => false
  end.

(** [k in v] for a string [k]: a key of a [dict], an element of a [list],
    a substring of a [str]; anything else is not a container. *)
Definition contains (k : string) (v : value) : exn + bool :=
  match v with
  | VDict d => inr (match lookup k d with Some _ => true | None => false end)
  | VList l => inr (existsb (is_str k) l)
  | VStr s => inr (Str.contains k s)
  | VNone | VBool _ | VInt _ | VFloat _ => inl TypeError
  end.

(** [v[k]] for a string [k]. *)
Definition getitem (v : value) (k : string) : exn + value :=
  match v with
  | VDict d => match lookup k d with Some x => inr x | None => inl KeyError end
  | _ => inl TypeError
  end.

(** [v.get(k, default)]: only a [dict] has the method. *)
Definition get (v : value) (k : string) (default : value) : exn + value :=
  match v with
  | VDict d => inr (match lookup k d with Some x => x | None => default end)
  | _ => inl AttributeError
  end.

(** [iter(v)]: the elements of a [list], the keys of a [dict], the
    characters of a [str]. *)
Definition iter (v : value) : exn + list value :=
  match v with
  | VList l => inr l
  | VDict d => inr (map (fun kv => VStr (fst kv)) d)
  | VStr s => inr (map VStr (Str.chars s))
  | VNone | VBool _ | VInt _ | VFloat _ => inl TypeError
  end.

(** [v[:n]].  A [dict] refuses a slice as a key ([KeyError] from CPython
    3.12 on, where a slice is hashable; [TypeError] before). *)
Definition slice_to (n : nat) (v : value) : exn + value :=
  match v with
  | VList l => inr (VList (firstn n l))
  | VStr s => inr (VStr (Str.take n s))
  | VDict _ => inl KeyError
  | VNone | VBool _ | VInt _ | VFloat _ => inl TypeError
  end.

Definition str_of_int (z : Z) : string := NilZero.string_of_int (Z.to_int z).

(** [float(n)] for an [int]: the nearest double, ties to even; [None] is
    the [OverflowError] of an integer that rounds beyond the largest
    double. *)
Definition float_of_int (z : Z) : option PrimFloat.float :=
  match binary_normalize FloatOps.prec FloatOps.emax z 0 false with
  | S754_infinity _ => None
  | sf => Some (SF2Prim sf)
  end.

Section Formatting.
Context {B : Builtins}.

(** [repr(v)], which [str()] of a container applies to its members. *)
Fixpoint repr (v : value) : string :=
  match v with
  | VNone => "None"
  | VBool b => if b then "True" else "False"
  | VInt z => str_of_int z
  | VFloat f => str_of_float f
  | VStr s => repr_of_str s
  | VList l => "[" ++ String.concat ", " (map repr l) ++ "]"
  | VDict d =>
      "{" ++ String.concat ", "
               (map (fun kv => repr_of_str (fst kv) ++ ": " ++ repr (snd kv)) d) ++ "}"
  end.

(** [str(v)], which an f-string applies to each field. *)
Definition str (v : value) : string :=
  match v with
  | VStr s => s
  | _ => repr v
  end.

(** [float(v)] *)
Definition float (v : value) : exn + PrimFloat.float :=
  match v with
  | VFloat f => inr f
  | VInt z => match float_of_int z with Some f => inr f | None => inl OverflowError end
  | VBool b => inr (if b then PrimFloat.one else PrimFloat.zero)
  | VStr s => match float_of_str s with inr f => inr f | inl _ => inl ValueError end
  | VNone | VList _ | VDict _ => inl TypeError
  end.

End Formatting.

End Py.

(* ------------------------------------------------------------------ *)
(** * weather/weather.py *)

Module Weather.
Import Py.

(** A handler returns a value or raises. *)
Inductive outcome (A : Type) : Type :=
| Ret (a : A)
| Raise (e : exn).
Arguments Ret {A} a.
Arguments Raise {A} e.

(** A handler runs over the log of the calls of [_get_json] made so far,
    oldest first, each entry the [url] argument of the call. *)
Definition M (A : Type) : Type := list value -> outcome A * list value.

Definition ret {A} (a : A) : M A := fun log => (Ret a, log).

Definition bind {A C} (m : M A) (k : A -> M C) : M C :=
  fun log =>
    match m log with
    | (Ret a, log') => k a log'
    | (Raise e, log') => (Raise e, log')
    end.

(** A computation that makes no request. *)
Definition lift {A} (r : exn + A) : M A :=
  fun log => match r with inr a => (Ret a, log) | inl e => (Raise e, log) end.

Notation "x <- m ;; k" := (bind m (fun x => k))
  (at level 61, m at next level, right associativity).

(** Sequencing of computations that only return or raise. *)
Definition and_then {A C} (r : exn + A) (k : A -> exn + C) : exn + C :=
  match r with
  | inr a => k a
  | inl e => inl e
  end.

Notation "x <~ r ;; k" := (and_then r (fun x => k))
  (at level 61, r at next level, right associativity).

(** Left to right, stopping at the first element that raises: a [for]
    loop, or a generator consumed by [join]. *)
Fixpoint for_each {A C} (f : A -> exn + C) (l : list A) : exn + list C :=
  match l with
  | [] => inr []
  | x :: l' => y <~ f x ;; ys <~ for_each f l' ;; inr (y :: ys)
  end.

Definition NWS_API_BASE : string := "https://api.weather.gov".

(** The literal between [{temp}] and [{unit}] in the source: the two code
    points U+00C2 and U+00B0. *)
Definition degree_literal : string :=
  String "194"%char (String "176"%char EmptyString).

(** The degree sign, U+00B0. *)
Definition degree_sign : string := String "176"%char EmptyString.

Definition alerts_separator : string :=
  Str.nl ++ Str.nl ++ "---" ++ Str.nl ++ Str.nl.

Section Server.
Context {B : Builtins}.

(** The remote service: what a GET of a URL yields after the calls in the
    log.  [None] is any exception inside the [try] of [_get_json]
    (connection, time-out, status, decoding); [Some v] is the decoded
    body. *)
Variable net : list value -> string -> option value.

(** What [_get_json url] returns after the calls in [log].  A [url] that
    is no [str] makes [client.get] raise inside the [try]. *)
Definition response (log : list value) (url : value) : value :=
  match url with
  | VStr u => match net log u with Some v => v | None => VNone end
  | _ => VNone
  end.

Definition _get_json (url : value) : M value :=
  fun log => (Ret (response log url), (log ++ [url])%list).

Definition _format_alert (feature : value) : exn + string :=
  props <~ get feature "properties" (VDict []) ;;
  event <~ get props "event" (VStr "Unknown") ;;
  area <~ get props "areaDesc" (VStr "Unknown") ;;
  severity <~ get props "severity" (VStr "Unknown") ;;
  description <~ get props "description" (VStr "No description available") ;;
  instruction <~ get props "instruction" (VStr "No specific instructions provided") ;;
  inr ("Event: " ++ str event ++ Str.nl ++
       "Area: " ++ str area ++ Str.nl ++
       "Severity: " ++ str severity ++ Str.nl ++
       "Description: " ++ str description ++ Str.nl ++
       "Instructions: " ++ str instruction).

Definition alerts_url (state : string) : string :=
  NWS_API_BASE ++ "/alerts/active/area/" ++ upper state.

Definition get_alerts (state : string) : M string :=
  if String.eqb state "" || negb (Nat.eqb (String.length state) 2) then
    ret "Please provide a 2-letter US state/territory code (e.g., CA, NY)."
  else
    data <- _get_json (VStr (alerts_url state)) ;;
    absent <- lift (if negb (truthy data) then inr true
                    else present <~ contains "features" data ;; inr (negb present)) ;;
    if absent : bool then ret "Unable to fetch alerts or invalid response."
    else
      feats <- lift (get data "features" (VList [])) ;;
      if negb (truthy feats) then ret "No active alerts for this state."
      else
        fs <- lift (iter feats) ;;
        blocks <- lift (for_each _format_alert fs) ;;
        ret (String.concat alerts_separator blocks).

(** The condition of both checks of [get_forecast]:
    [not x or k1 not in x or k2 not in x[k1]]. *)
Definition lacks (x : value) (k1 k2 : string) : exn + bool :=
  if negb (truthy x) then inr true
  else
    has1 <~ contains k1 x ;;
    if negb has1 then inr true
    else
      inner <~ getitem x k1 ;;
      has2 <~ contains k2 inner ;;
      inr (negb has2).

(** The body of the loop over the periods. *)
Definition format_period (p : value) : exn + string :=
  name <~ get p "name" (VStr "Period") ;;
  short <~ get p "shortForecast" (VStr "n/a") ;;
  temp <~ get p "temperature" (VStr "n/a") ;;
  unit <~ get p "temperatureUnit" (VStr "") ;;
  wind <~ get p "windSpeed" (VStr "") ;;
  inr (str name ++ ": " ++ str short ++ " (" ++ str temp ++ degree_literal ++
       str unit ++ ") Wind " ++ str wind).

Definition points_url (lat lon : PrimFloat.float) : string :=
  NWS_API_BASE ++ "/points/" ++ str_of_float lat ++ "," ++ str_of_float lon.

Definition get_forecast (latitude longitude : value) : M string :=
  match lat <~ float latitude ;; lon <~ float longitude ;; inr (lat, lon) with
  | inl _ => ret "Invalid latitude/longitude."
  | inr (lat, lon) =>
      points <- _get_json (VStr (points_url lat lon)) ;;
      unresolved <- lift (lacks points "properties" "forecast") ;;
      if unresolved : bool then
        ret "Unable to resolve grid forecast URL for this location."
      else
        point_props <- lift (getitem points "properties") ;;
        forecast_url <- lift (getitem point_props "forecast") ;;
        fc <- _get_json forecast_url ;;
        no_periods <- lift (lacks fc "properties" "periods") ;;
        if no_periods : bool then ret "Unable to fetch forecast periods."
        else
          fc_props <- lift (getitem fc "properties") ;;
          all_periods <- lift (getitem fc_props "periods") ;;
          periods <- lift (slice_to 4 all_periods) ;;
          ps <- lift (iter periods) ;;
          lines <- lift (for_each format_period ps) ;;
          ret (String.concat Str.nl lines)
  end.

End Server.

End Weather.

(* ------------------------------------------------------------------ *)
(** * mcp-client/client.py *)

Module Client.
Import Py.

(** The loop of [main] waits for a line ([AwaitingInput]), has left the
    loop ([Closed]), or was left by an exception that [except Exception]
    does not catch ([Aborted]). *)
Inductive state : Type :=
| AwaitingInput
| Closed
| Aborted.

(** What [input()] does: it returns a line or raises one of the two
    exceptions the loop breaks on. *)
Inductive input_event : Type :=
| Line (s : string)
| EOFError
| KeyboardInterrupt.

(** A block of a tool result: [TextContent] has the attribute [text]; a
    block of another class (named by [class_name]) has not. *)
Inductive content : Type :=
| TextContent (text : string)
| OtherContent (class_name : string).

(** A raised exception: whether its class derives from [Exception]
    ([KeyboardInterrupt] and [asyncio.CancelledError] do not), and
    [str(e)]. *)
Record raised : Type := {
  is_Exception : bool;
  message : string
}.

Definition error (msg : string) : raised :=
  {| is_Exception := true; message := msg |}.

(** What [await session.call_tool(name, arguments)] does. *)
Inductive call_outcome : Type :=
| Returned (content_blocks : list content)
| Raised (e : raised).

(** What the user and the server see of the client, in order. *)
Inductive event : Type :=
| Prompt
| Printed (s : string)
| Called (name : string) (arguments : list (string * value)).

Definition is_call (e : event) : bool :=
  match e with
  | Called _ _ => true
  | _ => false
  end.

(** [res.content[0].text] *)
Definition first_text (r : call_outcome) : raised + string :=
  match r with
  | Raised e => inl e
  | Returned [] => inl (error "list index out of range")
  | Returned (TextContent text :: _) => inr text
  | Returned (OtherContent class_name :: _) =>
      inl (error ("'" ++ class_name ++ "' object has no attribute 'text'"))
  end.

(** [a, b = l] *)
Definition unpack2 (l : list string) : raised + string * string :=
  match l with
  | [a; b] => inr (a, b)
  | _ =>
      if Nat.ltb (length l) 2 then
        inl (error ("not enough values to unpack (expected 2, got " ++
                    NilZero.string_of_uint (Nat.to_uint (length l)) ++ ")"))
      else inl (error "too many values to unpack (expected 2)")
  end.

Definition usage : string := "Usage: forecast <LAT> <LON>".

Definition unknown_command : string :=
  "Unknown command. Try: alerts CA  |  forecast 37.78 -122.42".

Section Repl.
Context {B : Builtins}.

(** The server behind the session: the outcome of a call after the events
    so far. *)
Variable call_tool : list event -> string -> list (string * value) -> call_outcome.

(** Call the tool and print the text of its first block. *)
Definition call_and_print (hist : list event) (name : string)
    (arguments : list (string * value)) : list event * option raised :=
  match first_text (call_tool hist name arguments) with
  | inl e => ([Called name arguments], Some e)
  | inr text => ([Called name arguments; Printed text], None)
  end.

(** The body of the inner [try] for the stripped line [q]: the events it
    produces, and the exception that leaves it, if any. *)
Definition dispatch (q : string) (hist : list event) : list event * option raised :=
  if String.prefix "alerts " q then
    match unpack2 (Str.split_max1 q) with
    | inl e => ([], Some e)
    | inr (_, state) => call_and_print hist "get_alerts" [("state", VStr state)]
    end
  else if String.prefix "forecast " q then
    let parts := Str.split q in
    if negb (Nat.eqb (length parts) 3) then ([Printed usage], None)
    else
      match float_of_str (nth 1 parts "") with
      | inl msg => ([], Some (error msg))
      | inr lat =>
          match float_of_str (nth 2 parts "") with
          | inl msg => ([], Some (error msg))
          | inr lon =>
              call_and_print hist "get_forecast"
                [("latitude", VFloat lat); ("longitude", VFloat lon)]
          end
      end
  else ([Printed unknown_command], None).

(** One iteration of [while True] after the prompt is shown: the next
    state and the events of the iteration. *)
Definition iteration (ev : input_event) (hist : list event) : state * list event :=
  match ev with
  | EOFError | KeyboardInterrupt => (Closed, [])
  | Line raw =>
      let q := Str.strip raw in
      if String.eqb q "" then (AwaitingInput, [])
      else if String.eqb (Str.lower q) "quit" then (Closed, [])
      else
        match dispatch q hist with
        | (evs, None) => (AwaitingInput, evs)
        | (evs, Some e) =>
            if is_Exception e
            then (AwaitingInput, (evs ++ [Printed ("Error: " ++ message e)])%list)
            else (Aborted, evs)
        end
  end.

(** The loop over the lines the user will type.  When they run out the
    client is left waiting at the prompt. *)
Fixpoint main_loop (inputs : list input_event) (hist : list event)
  : state * list event :=
  match inputs with
  | [] => (AwaitingInput, (hist ++ [Prompt])%list)
  | ev :: rest =>
      let prompted := (hist ++ [Prompt])%list in
      let (st, evs) := iteration ev prompted in
      match st with
      | AwaitingInput => main_loop rest (prompted ++ evs)%list
      | _ => (st, (prompted ++ evs)%list)
      end
  end.

End Repl.

End Client.

(* ------------------------------------------------------------------ *)
(** * The specification's vocabulary *)

Module Spec.
Import Py.

(** The member [k2] of the member [k1] of a JSON value, when both exist. *)
Definition path (k1 k2 : string) (v : value) : option value :=
  match v with
  | VDict d =>
      match lookup k1 d with
      | Some (VDict inner) => lookup k2 inner
      | _ => None
      end
  | _ => None
  end.

(** No data at all, or an object in which the key [k1] is absent, or in
    which [k1] holds an object where the key [k2] is absent. *)
Definition missing_path (k1 k2 : string) (v : value) : bool :=
  match v with
  | VNone => true
  | VDict d =>
      match lookup k1 d with
      | None => true
      | Some (VDict inner) =>
          match lookup k2 inner with
          | None => true
          | Some _ => false
          end
      | Some _ => false
      end
  | _ => false
  end.

(** The properties of a feature: those of its ["properties"] object, none
    when the feature has no such key. *)
Definition properties_of (feature : value) : option (list (string * value)) :=
  match feature with
  | VDict d =>
      match lookup "properties" d with
      | None => Some []
      | Some (VDict props) => Some props
      | Some _ => None
      end
  | _ => None
  end.

Definition fields_of (v : value) : option (list (string * value)) :=
  match v with
  | VDict d => Some d
  | _ => None
  end.

Definition is_list (v : value) : bool :=
  match v with
  | VList _ => true
  | _ => false
  end.

Definition guidance : string :=
  "Please provide a 2-letter US state/territory code (e.g., CA, NY).".

Definition unable_to_fetch : string := "Unable to fetch alerts or invalid response.".

Definition no_active_alerts : string := "No active alerts for this state.".

Definition invalid_coordinates : string := "Invalid latitude/longitude.".

Definition unable_to_resolve : string :=
  "Unable to resolve grid forecast URL for this location.".

Definition unable_to_fetch_periods : string := "Unable to fetch forecast periods.".

Section Blocks.
Context {B : Builtins}.

(** A field as it is shown: the text of its value, or the placeholder
    when the key is absent. *)
Definition field (fields : list (string * value)) (key placeholder : string) : string :=
  match lookup key fields with
  | Some v => str v
  | None => placeholder
  end.

(** The five labelled lines of an alert. *)
Definition alert_lines (props : list (string * value)) : list string :=
  [ "Event: " ++ field props "event" "Unknown";
    "Area: " ++ field props "areaDesc" "Unknown";
    "Severity: " ++ field props "severity" "Unknown";
    "Description: " ++ field props "description" "No description available";
    "Instructions: " ++ field props "instruction" "No specific instructions provided" ].

Definition alert_block (props : list (string * value)) : string :=
  String.concat Str.nl (alert_lines props).

(** The line of a forecast period, with [degree] between the temperature
    and its unit. *)
Definition period_line (degree : string) (p : list (string * value)) : string :=
  field p "name" "Period" ++ ": " ++ field p "shortForecast" "n/a" ++
  " (" ++ field p "temperature" "n/a" ++ degree ++ field p "temperatureUnit" "" ++
  ") Wind " ++ field p "windSpeed" "".

End Blocks.

End Spec.

(* ------------------------------------------------------------------ *)
(** * Sample inputs *)

Module Sample.
Import Py.

(** The upper case of an ASCII letter. *)
Definition upper_char (c : ascii) : ascii :=
  let n := N_of_ascii c in
  if ((97 <=? n) && (n <=? 122))%N then ascii_of_N (n - 32) else c.

Fixpoint ascii_upper (s : string) : string :=
  match s with
  | EmptyString => EmptyString
  | String c s' => String (upper_char c) (ascii_upper s')
  end.

Definition lat : PrimFloat.float := 0x1.2e3d70a3d70a4p+5%float.

Definition lon : PrimFloat.float := (-0x1.e9ae147ae147bp+6)%float.

(** An interpreter for the runs below, exact on what they feed it.
    [float()] and [str()] know the two coordinates by their text, and
    [float()] refuses the other texts of the runs with CPython's message;
    [repr] and [upper] are those of ASCII text without quotes. *)
(** The two coordinates of the usage note of [client.py]: the doubles
    nearest to 37.78 and -122.42. *)
Definition runtime : Builtins := {|
  float_of_str := fun s =>
    if String.eqb s "37.78" then inr lat
    else if String.eqb s "-122.42" then inr lon
    else inl ("could not convert string to float: '" ++ s ++ "'");
  str_of_float := fun f =>
    if PrimFloat.eqb f lat then "37.78"
    else if PrimFloat.eqb f lon then "-122.42"
    else "nan";
  repr_of_str := fun s => "'" ++ s ++ "'";
  upper := ascii_upper
|}.

(** A service that answers every request with the same body, or never. *)
Definition always (body : option value) : list value -> string -> option value :=
  fun _ _ => body.

(** Two alerts; the second one has no properties at all. *)
Definition alert_features : list value :=
  [ VDict [("properties",
            VDict [("event", VStr "Flood Warning");
                   ("areaDesc", VStr "Marin");
                   ("severity", VStr "Severe");
                   ("instruction", VNone)])];
    VDict [("type", VStr "Feature")] ].

Definition two_alerts : value := VDict [("features", VList alert_features)].

(** A feature whose properties are [null], as GeoJSON allows. *)
Definition null_properties : value :=
  VDict [("features", VList [VDict [("properties", VNone)]])].

Definition forecast_at : string := "https://api.weather.gov/gridpoints/MTR/85,105/forecast".

Definition points_body : value :=
  VDict [("properties", VDict [("forecast", VStr forecast_at)])].

Definition tonight : value :=
  VDict [("name", VStr "Tonight"); ("shortForecast", VStr "Clear");
         ("temperature", VInt 55); ("temperatureUnit", VStr "F");
         ("windSpeed", VStr "5 mph")].

Definition forecast_body (periods : list value) : value :=
  VDict [("properties", VDict [("periods", VList periods)])].

(** The points lookup is answered first; [second] answers what follows. *)
Definition forecast_service (second : option value) : list value -> string -> option value :=
  fun log _ =>
    match log with
    | [] => Some points_body
    | _ => second
    end.

(** The two URLs the handlers build for the inputs of the runs. *)
Definition alerts_ca : value := VStr "https://api.weather.gov/alerts/active/area/CA".

Definition points_sf : value := VStr "https://api.weather.gov/points/37.78,-122.42".

(** A server that answers every call with one text block. *)
Definition session (text : string)
  : list Client.event -> string -> list (string * value) -> Client.call_outcome :=
  fun _ _ _ => Client.Returned [Client.TextContent text].

(** A server whose every call fails with an [Exception]. *)
Definition broken_session (msg : string)
  : list Client.event -> string -> list (string * value) -> Client.call_outcome :=
  fun _ _ _ => Client.Raised (Client.error msg).

End Sample.

(* ------------------------------------------------------------------ *)
(** * Further vocabulary and inputs *)

Module Shape.
Import Py Weather.

(** A JSON object. *)
Definition is_object (v : value) : bool :=
  match v with
  | VDict _ => true
  | _ => false
  end.

(** A JSON string. *)
Definition is_text (v : value) : bool :=
  match v with
  | VStr _ => true
  | _ => false
  end.

(** A JSON number or boolean: a value that is no container. *)
Definition is_number (v : value) : bool :=
  match v with
  | VBool _ | VInt _ | VFloat _ => true
  | _ => false
  end.

(** A JSON array or string. *)
Definition is_sequence (v : value) : bool :=
  match v with
  | VList _ | VStr _ => true
  | _ => false
  end.

(** What a handler hands back for a computation that makes no request. *)
Definition outcome_of {A} (r : exn + A) : outcome A :=
  match r with
  | inr a => Ret a
  | inl e => Raise e
  end.

End Shape.

Module Cases.
Import Py.

(** Five periods of which the fifth is [null]. *)
Definition five_periods : list value :=
  [Sample.tonight; VDict [("name", VStr "Friday")]; VDict []; VDict [];
   VNone].

(** Two periods of which the second is [null]. *)
Definition broken_periods : list value := [Sample.tonight; VNone].

(** A points body whose forecast URL is [null]. *)
Definition null_forecast_url : value :=
  VDict [("properties", VDict [("forecast", VNone)])].

(** A forecast body whose periods are [null]. *)
Definition null_periods : value :=
  VDict [("properties", VDict [("periods", VNone)])].

(** An alert without properties followed by one whose properties are a
    string. *)
Definition mixed_features : value :=
  VDict [("features",
          VList [VDict [("type", VStr "Feature")];
                 VDict [("properties", VStr "none")]])].

End Cases.

(* ------------------------------------------------------------------ *)
(** * The start of [main] *)

Module Startup.
Import Py Client.

(** How [main] ends: [sys.exit(code)], a normal return, an exception that
    nothing catches; or it is still waiting, the lines having run out. *)
Inductive ending : Type :=
| Exited (code : nat)
| Completed
| Failed
| Waiting.

(** What is seen of [main]: the server process it launches, then the
    events of the session. *)
Inductive step : Type :=
| Launched (command : string) (args : list string)
| Seen (e : event).

Definition main_usage : string := "Usage: python client.py path/to/weather.py".

(** The number of tool calls among some events. *)
Definition calls_in (evs : list event) : nat := length (filter is_call evs).


Section Main.
Context {B : Builtins}.

(** Launching the server, the handshake and [list_tools]: the names of
    the tools, or the exception one of the three raises. *)
Variable connect : string -> list string -> raised + list string.

Variable call_tool : list event -> string -> list (string * value) -> call_outcome.

(** [print("Connected. Tools available:", names)] *)
Definition banner (names : list string) : event :=
  Printed ("Connected. Tools available: " ++ str (VList (map VStr names))).

(** [main], for the command line [argv] ([sys.argv], the script first) and
    the lines the user will type. *)
Definition main (argv : list string) (inputs : list input_event)
  : ending * list step :=
  if Nat.ltb (length argv) 2 then (Exited 1, [Seen (Printed main_usage)])
  else
    let server_script := nth 1 argv "" in
    let launched := Launched "python" [server_script] in
    match connect "python" [server_script] with
    | inl _ => (Failed, [launched])
    | inr names =>
        let (st, transcript) := main_loop call_tool inputs [banner names] in
        (match st with
         | Closed => Completed
         | Aborted => Failed
         | AwaitingInput => Waiting
         end,
         launched :: map Seen transcript)
    end.

End Main.
End Startup.

Module Scripts.
Import Py Client.


(** A server that answers with two blocks. *)
Definition two_block_session
  : list event -> string -> list (string * value) -> call_outcome :=
  fun _ _ _ => Returned [TextContent "first"; TextContent "second"].

(** A server that answers with no block, and one that answers with an
    image. *)
Definition empty_session
  : list event -> string -> list (string * value) -> call_outcome :=
  fun _ _ _ => Returned [].

Definition image_session
  : list event -> string -> list (string * value) -> call_outcome :=
  fun _ _ _ => Returned [OtherContent "ImageContent"].

(** A connection that succeeds with the two tools of [weather.py], and
    one that fails. *)
Definition connected : string -> list string -> raised + list string :=
  fun _ _ => inr ["get_alerts"; "get_forecast"].

Definition refused : string -> list string -> raised + list string :=
  fun _ _ => inl (error "Connection closed").

End Scripts.

(* ------------------------------------------------------------------ *)
(** * Facts about the string methods *)

Module StrFacts.
Import Str.
#[local] Arguments is_space : simpl never.
#[local] Arguments lower_char : simpl never.

Lemma prefix_append (p s : string) :
  String.prefix p s = true -> exists r, s = p ++ r.
Proof.
  revert s. induction p as [| c p IH]; intros s H.
  - exists s. reflexivity.
  - destruct s as [| c' s']; [discriminate |]. cbn in H.
    destruct (ascii_dec c c') as [-> | ne]; [| discriminate].
    destruct (IH s' H) as [r ->]. exists r. reflexivity.
Qed.

Lemma append_length (s t : string) :
  String.length (s ++ t) = String.length s + String.length t.
Proof. induction s as [| c s IH]; cbn; [reflexivity | now rewrite IH]. Qed.

Lemma prefix_length (p s : string) :
  String.prefix p s = true -> String.length p <= String.length s.
Proof.
  intros H. destruct (prefix_append p s H) as [r ->].
  rewrite append_length. lia.
Qed.

Lemma lower_length (s : string) : String.length (lower s) = String.length s.
Proof. induction s as [| c s IH]; cbn; congruence. Qed.

Lemma all_space_lstrip (s : string) : all_space s = true -> lstrip s = "".
Proof.
  induction s as [| c s IH]; [reflexivity |]. cbn.
  destruct (is_space c); [exact IH | discriminate].
Qed.

Lemma lstrip_empty (s : string) : lstrip s = "" -> all_space s = true.
Proof.
  induction s as [| c s IH]; [reflexivity |]. cbn.
  destruct (is_space c); [exact IH | discriminate].
Qed.

(** No whitespace is left at the end of [rstrip s]. *)
Lemma rstrip_suffix (s u t : string) :
  rstrip s = u ++ t -> all_space t = true -> t = "".
Proof.
  revert u t. induction s as [| c s IH]; intros u t H Ht.
  - destruct u; [exact (eq_sym H) | discriminate].
  - cbn [rstrip] in H. destruct (rstrip s) as [| c1 r1] eqn:Hr.
    + destruct (is_space c) eqn:Hc.
      * destruct u; [exact (eq_sym H) | discriminate].
      * destruct u as [| cu u'].
        -- cbn in H. subst t. cbn in Ht. rewrite Hc in Ht. discriminate.
        -- cbn in H. injection H as _ H. destruct u'; [exact (eq_sym H) | discriminate].
    + destruct u as [| cu u'].
      * cbn in H. subst t. cbn [all_space] in Ht.
        apply andb_true_iff in Ht. destruct Ht as [_ Ht].
        discriminate (IH "" (String c1 r1) eq_refl Ht).
      * cbn in H. injection H as _ H. exact (IH u' t H Ht).
Qed.

Lemma strip_suffix (s u t : string) :
  strip s = u ++ t -> all_space t = true -> t = "".
Proof. unfold strip. apply rstrip_suffix. Qed.

Lemma lower_char_q (c : ascii) (l : ascii) :
  In l ["q"; "u"; "i"; "t"]%char -> lower_char c = l -> is_space c = false.
Proof.
  intros Hl H.
  destruct c as [[] [] [] [] [] [] [] []]; try reflexivity;
    cbv in H; subst l; cbv in Hl; repeat destruct Hl as [Hl | Hl]; try discriminate Hl; contradiction.
Qed.

(** A line that reads [quit] in some letter case has no whitespace to
    strip. *)
Lemma quit_is_stripped (s : string) : lower s = "quit" -> strip s = s.
Proof.
  destruct s as [| c1 [| c2 [| c3 [| c4 [| c5 s]]]]]; try discriminate.
  cbn [lower]. intros H. injection H as H1 H2 H3 H4.
  apply lower_char_q in H1; [| cbn; tauto].
  apply lower_char_q in H2; [| cbn; tauto].
  apply lower_char_q in H3; [| cbn; tauto].
  apply lower_char_q in H4; [| cbn; tauto].
  unfold strip. cbn [lstrip]. rewrite H1. cbn [rstrip]. rewrite H4. reflexivity.
Qed.

Lemma lower_not_quit (p q : string) :
  String.prefix p q = true -> 4 < String.length p -> lower q <> "quit".
Proof.
  intros Hp Hlen Hq. apply prefix_length in Hp.
  apply (f_equal String.length) in Hq. rewrite lower_length in Hq. cbn in Hq. lia.
Qed.

(** After a command word and a blank, a stripped line still holds
    something to read. *)
Lemma stripped_rest (raw word r : string) :
  strip raw = word ++ " " ++ r -> lstrip r <> "".
Proof.
  intros H Hr. apply lstrip_empty in Hr.
  assert (Ht : all_space (" " ++ r) = true) by exact Hr.
  discriminate (strip_suffix raw word (" " ++ r) H Ht).
Qed.

Lemma split_max1_alerts (r : string) :
  lstrip r <> "" -> split_max1 ("alerts " ++ r) = ["alerts"; lstrip r].
Proof.
  intros Hr.
  transitivity (match lstrip (drop_token ("alerts " ++ r)) with
                | "" => [take_token ("alerts " ++ r)]
                | String c rest => [take_token ("alerts " ++ r); String c rest]
                end); [reflexivity |].
  change (drop_token ("alerts " ++ r)) with (" " ++ r).
  change (lstrip (" " ++ r)) with (lstrip r).
  change (take_token ("alerts " ++ r)) with "alerts".
  destruct (lstrip r); [contradiction | reflexivity].
Qed.

Lemma lstrip_length (s : string) : String.length (lstrip s) <= String.length s.
Proof.
  induction s as [| c s IH]; cbn [lstrip String.length]; [lia |].
  destruct (is_space c); cbn [String.length]; lia.
Qed.

Lemma lstrip_head (s r : string) (c : ascii) :
  lstrip s = String c r -> is_space c = false.
Proof.
  induction s as [| c' s IH]; cbn [lstrip]; [discriminate |].
  destruct (is_space c') eqn:Hc; [exact IH |].
  intros H. injection H as <- _. exact Hc.
Qed.

Lemma drop_token_length (s : string) :
  String.length (drop_token s) <= String.length s.
Proof.
  induction s as [| c s IH]; cbn [drop_token String.length]; [lia |].
  destruct (is_space c); cbn [String.length]; lia.
Qed.

(** [length s] rounds are enough for [split]: more rounds find nothing
    more. *)
Lemma split_rounds_enough (n : nat) (s : string) :
  String.length s <= n -> split_rounds n s = split s.
Proof.
  unfold split.
  enough (H : forall n m s, String.length s <= n -> String.length s <= m ->
                            split_rounds n s = split_rounds m s)
    by (intros Hn; apply H; [exact Hn | lia]).
  clear n s. induction n as [| n IH]; intros m s Hn Hm.
  - destruct s; [| cbn in Hn; lia]. destruct m; reflexivity.
  - destruct m as [| m].
    + destruct s; [reflexivity | cbn in Hm; lia].
    + cbn [split_rounds].
      destruct (lstrip s) as [| c r] eqn:Hs; [reflexivity |].
      f_equal.
      pose proof (lstrip_length s) as Hl. rewrite Hs in Hl. cbn [String.length] in Hl.
      cbn [drop_token]. rewrite (lstrip_head s r c Hs).
      pose proof (drop_token_length r) as Hd.
      apply IH; lia.
Qed.

End StrFacts.

(* ------------------------------------------------------------------ *)
(** * The tool handlers *)

Module WeatherFacts.
Import Py Weather Spec.

Section Server.
Context {B : Builtins}.
Variable net : list value -> string -> option value.

Lemma two_letters_pass (state : string) :
  String.length state = 2 ->
  String.eqb state "" || negb (Nat.eqb (String.length state) 2) = false.
Proof.
  intros H. rewrite H. destruct state; [discriminate | reflexivity].
Qed.

Lemma other_lengths_stop (state : string) :
  String.length state <> 2 ->
  String.eqb state "" || negb (Nat.eqb (String.length state) 2) = true.
Proof.
  intros H. apply orb_true_iff. right.
  apply negb_true_iff, Nat.eqb_neq. exact H.
Qed.

(** What [get_alerts] does with the body it fetched. *)
Lemma get_alerts_after_fetch (state : string) (log : list value) :
  String.length state = 2 ->
  get_alerts net state log =
  (data <- _get_json net (VStr (alerts_url state)) ;;
   absent <- lift (if negb (truthy data) then inr true
                   else present <~ contains "features" data ;; inr (negb present)) ;;
   if absent : bool then ret unable_to_fetch
   else
     feats <- lift (get data "features" (VList [])) ;;
     if negb (truthy feats) then ret no_active_alerts
     else
       fs <- lift (iter feats) ;;
       blocks <- lift (for_each _format_alert fs) ;;
       ret (String.concat alerts_separator blocks)) log.
Proof.
  intros H. unfold get_alerts. rewrite (two_letters_pass state H). reflexivity.
Qed.

(** C3.  A state code whose length is not 2, the empty string included,
    gets the fixed guidance string, and the log of requests is left as it
    was: no HTTP request is made. *)
Theorem get_alerts_rejects_other_lengths (state : string) (log : list value) :
  String.length state <> 2 ->
  get_alerts net state log = (Ret guidance, log).
Proof.
  intros H. unfold get_alerts. rewrite (other_lengths_stop state H). reflexivity.
Qed.

Lemma lookup_truthy (k : string) (d : list (string * value)) (v : value) :
  lookup k d = Some v -> truthy (VDict d) = true.
Proof. destruct d; [discriminate | reflexivity]. Qed.

(** C6.  When the body fetched is an object whose ["features"] is the empty
    list, [get_alerts] returns exactly the "no active alerts" string; when
    [_get_json] returns no data, or an object without the key
    ["features"], it returns the "unable to fetch" string.  Either way one
    request was made. *)
Theorem get_alerts_none_or_unavailable (state : string) (log : list value) :
  String.length state = 2 ->
  let url := VStr (alerts_url state) in
  let data := response net log url in
  ((exists d, data = VDict d /\ lookup "features" d = Some (VList [])) ->
   get_alerts net state log = (Ret no_active_alerts, (log ++ [url])%list))
  /\
  ((data = VNone \/ exists d, data = VDict d /\ lookup "features" d = None) ->
   get_alerts net state log = (Ret unable_to_fetch, (log ++ [url])%list)).
Proof.
  intros H url data. rewrite (get_alerts_after_fetch state log H).
  unfold bind, _get_json. fold url. fold data. split.
  - intros [d [Hd Hf]]. rewrite Hd. 
    rewrite (lookup_truthy _ _ _ Hf). simpl. unfold lift. simpl. rewrite Hf. simpl. reflexivity.
  - intros [Hn | [d [Hd Hf]]].
    + rewrite Hn. reflexivity.
    + rewrite Hd. unfold lift. destruct d as [| kv d'].
      * reflexivity.
      * cbn [truthy negb and_then contains]. rewrite Hf. reflexivity.
Qed.

(** C10.  When the key ["features"] is present and holds a falsy value
    that is no list ([null], [false], [0], the empty string or object),
    [get_alerts] returns the "no active alerts" string, as it does for an
    empty list. *)
Theorem get_alerts_falsy_features (state : string) (log : list value)
    (d : list (string * value)) (v : value) :
  String.length state = 2 ->
  response net log (VStr (alerts_url state)) = VDict d ->
  lookup "features" d = Some v ->
  is_list v = false ->
  truthy v = false ->
  get_alerts net state log =
  (Ret no_active_alerts, (log ++ [VStr (alerts_url state)])%list).
Proof.
  intros H Hd Hf _ Hv. rewrite (get_alerts_after_fetch state log H).
  unfold bind, _get_json. rewrite Hd.
  rewrite (lookup_truthy _ _ _ Hf). unfold lift. simpl. rewrite Hf. simpl.
  rewrite Hv. reflexivity.
Qed.


Lemma str_of_get (fields : list (string * value)) (key placeholder : string) :
  str (match lookup key fields with Some x => x | None => VStr placeholder end)
  = field fields key placeholder.
Proof. unfold field. destruct (lookup key fields); reflexivity. Qed.

Lemma format_alert_block (feature : value) (props : list (string * value)) :
  properties_of feature = Some props ->
  _format_alert feature = inr (alert_block props).
Proof.
  unfold properties_of, _format_alert. intros H.
  destruct feature as [ | | | | | | d]; try discriminate.
  cbn [get and_then].
  destruct (lookup "properties" d) as [[ | | | | | | inner] |]; try discriminate;
    injection H as <-; cbn [get and_then]; rewrite !str_of_get; reflexivity.
Qed.

Lemma for_each_blocks (feats : list value) (props : list (list (string * value))) :
  Forall2 (fun f p => properties_of f = Some p) feats props ->
  for_each _format_alert feats = inr (map alert_block props).
Proof.
  induction 1 as [| f p feats props Hf _ IH]; [reflexivity |].
  cbn [for_each map]. rewrite (format_alert_block f p Hf).
  cbn [and_then]. rewrite IH. reflexivity.
Qed.

(** C1, as amended.  When the body fetched holds under ["features"] a list
    of N >= 1 features, each an object whose ["properties"] is absent or
    an object, [get_alerts] returns N blocks joined by the separator; a
    block is the five labelled lines Event, Area, Severity, Description,
    Instructions in this order, a field whose key is absent replaced by
    its placeholder. *)
Theorem get_alerts_blocks (state : string) (log : list value)
    (d : list (string * value)) (feats : list value)
    (props : list (list (string * value))) :
  String.length state = 2 ->
  response net log (VStr (alerts_url state)) = VDict d ->
  lookup "features" d = Some (VList feats) ->
  feats <> [] ->
  Forall2 (fun f p => properties_of f = Some p) feats props ->
  get_alerts net state log =
    (Ret (String.concat alerts_separator (map alert_block props)),
     (log ++ [VStr (alerts_url state)])%list)
  /\ length props = length feats.
Proof.
  intros H Hd Hf Hne Hall. split.
  - rewrite (get_alerts_after_fetch state log H).
    unfold bind, _get_json. rewrite Hd.
    rewrite (lookup_truthy _ _ _ Hf). unfold lift. simpl. rewrite Hf. simpl.
    destruct feats as [| f feats']; [contradiction |].
    cbn [negb]. rewrite (for_each_blocks _ _ Hall). reflexivity.
  - symmetry. exact (Forall2_length Hall).
Qed.


(** ** get_forecast *)

Lemma get_forecast_after_coercion (latitude longitude : value)
    (lat lon : PrimFloat.float) (log : list value) :
  float latitude = inr lat ->
  float longitude = inr lon ->
  get_forecast net latitude longitude log =
  (points <- _get_json net (VStr (points_url lat lon)) ;;
   unresolved <- lift (lacks points "properties" "forecast") ;;
   if unresolved : bool then ret unable_to_resolve
   else
     point_props <- lift (getitem points "properties") ;;
     forecast_url <- lift (getitem point_props "forecast") ;;
     fc <- _get_json net forecast_url ;;
     no_periods <- lift (lacks fc "properties" "periods") ;;
     if no_periods : bool then ret unable_to_fetch_periods
     else
       fc_props <- lift (getitem fc "properties") ;;
       all_periods <- lift (getitem fc_props "periods") ;;
       periods <- lift (slice_to 4 all_periods) ;;
       ps <- lift (iter periods) ;;
       lines <- lift (for_each format_period ps) ;;
       ret (String.concat Str.nl lines)) log.
Proof.
  intros Hlat Hlon. unfold get_forecast. rewrite Hlat, Hlon. reflexivity.
Qed.

Lemma missing_path_lacks (k1 k2 : string) (v : value) :
  missing_path k1 k2 v = true -> lacks v k1 k2 = inr true.
Proof.
  unfold missing_path, lacks.
  destruct v as [ | | | | | | d]; try discriminate; [reflexivity |].
  destruct d as [| kv d']; [reflexivity |].
  cbn [truthy negb contains and_then getitem].
  destruct (lookup k1 (kv :: d')) as [[ | | | | | | inner] |]; try discriminate;
    [| reflexivity].
  cbn [negb contains and_then].
  destruct (lookup k2 inner); [discriminate | reflexivity].
Qed.

Lemma path_found (k1 k2 : string) (v u : value) :
  path k1 k2 v = Some u ->
  lacks v k1 k2 = inr false /\
  exists inner, getitem v k1 = inr inner /\ getitem inner k2 = inr u.
Proof.
  unfold path, lacks.
  destruct v as [ | | | | | | d]; try discriminate.
  destruct d as [| kv d']; [discriminate |].
  cbn [truthy negb contains and_then getitem].
  destruct (lookup k1 (kv :: d')) as [[ | | | | | | inner] |]; try discriminate.
  intros Hu. cbn [negb contains and_then getitem]. rewrite Hu.
  split; [reflexivity |]. exists (VDict inner). cbn [getitem]. rewrite Hu. auto.
Qed.

(** C9.  [get_forecast] applies [float()] to both arguments, whatever
    their type, before it fetches anything: when either conversion fails
    it returns "Invalid latitude/longitude." without raising and without a
    request, and otherwise its first request is the points URL built from
    the two converted numbers. *)
Theorem get_forecast_coerces_first (latitude longitude : value) (log : list value) :
  (((exists e, float latitude = inl e) \/ (exists e, float longitude = inl e)) ->
   get_forecast net latitude longitude log = (Ret invalid_coordinates, log))
  /\
  (forall lat lon, float latitude = inr lat -> float longitude = inr lon ->
   exists out more,
     get_forecast net latitude longitude log =
     (out, (log ++ VStr (points_url lat lon) :: more)%list)).
Proof.
  split.
  - unfold get_forecast. intros [[e He] | [e He]].
    + rewrite He. reflexivity.
    + rewrite He. destruct (float latitude); reflexivity.
  - intros lat lon Hlat Hlon.
    rewrite (get_forecast_after_coercion _ _ _ _ log Hlat Hlon).
    unfold bind, _get_json, lift, ret.
    repeat match goal with
           | |- context [match ?r with inl _ => _ | inr _ => _ end] =>
               destruct r as [? | ?]
           | |- context [if ?b then _ else _] => destruct b
           end;
      try (rewrite <- app_assoc; cbn [app]);
      eexists; first [ exists []; reflexivity | eexists; reflexivity ].
Qed.


(** C4, as amended.  When the points lookup yields no data, or an object
    without ["properties"], or one whose ["properties"] is an object
    without ["forecast"], [get_forecast] returns the "unable to resolve"
    string and its only request is the points lookup.  When the lookup
    yields a forecast URL and the second fetch yields no data (or an
    object without [properties.periods]), it returns the distinct "unable
    to fetch forecast periods" string after exactly two requests. *)
Theorem get_forecast_failure_by_step (latitude longitude : value)
    (lat lon : PrimFloat.float) (log : list value) :
  float latitude = inr lat ->
  float longitude = inr lon ->
  let first := VStr (points_url lat lon) in
  let points := response net log first in
  (missing_path "properties" "forecast" points = true ->
   get_forecast net latitude longitude log =
   (Ret unable_to_resolve, (log ++ [first])%list))
  /\
  (forall second,
   path "properties" "forecast" points = Some second ->
   missing_path "properties" "periods" (response net (log ++ [first]) second) = true ->
   get_forecast net latitude longitude log =
   (Ret unable_to_fetch_periods, (log ++ [first; second])%list)).
Proof.
  intros Hlat Hlon first points.
  rewrite (get_forecast_after_coercion _ _ _ _ log Hlat Hlon).
  unfold bind, _get_json. fold first. fold points. split.
  - intros Hmiss. rewrite (missing_path_lacks _ _ _ Hmiss). reflexivity.
  - intros second Hpath Hmiss.
    destruct (path_found _ _ _ _ Hpath) as [Hl [inner [H1 H2]]].
    rewrite Hl. cbn [lift]. rewrite H1. cbn [lift]. rewrite H2. cbn [lift].
    rewrite (missing_path_lacks _ _ _ Hmiss). cbn [lift ret].
    rewrite <- app_assoc. reflexivity.
Qed.

Lemma format_period_line (p : value) (fields : list (string * value)) :
  fields_of p = Some fields ->
  format_period p = inr (period_line degree_literal fields).
Proof.
  destruct p as [ | | | | | | d]; try discriminate.
  intros H. injection H as <-. unfold format_period.
  cbn [get and_then]. rewrite !str_of_get. reflexivity.
Qed.

Lemma for_each_lines (ps : list value) (fields : list (list (string * value))) :
  Forall2 (fun p f => fields_of p = Some f) ps fields ->
  for_each format_period ps = inr (map (period_line degree_literal) fields).
Proof.
  induction 1 as [| p f ps fields Hp _ IH]; [reflexivity |].
  cbn [for_each map]. rewrite (format_period_line p f Hp).
  cbn [and_then]. rewrite IH. reflexivity.
Qed.

Lemma Forall2_firstn {A C} (R : A -> C -> Prop) (n : nat) (l : list A) (l' : list C) :
  Forall2 R l l' -> Forall2 R (firstn n l) (firstn n l').
Proof.
  intros H. revert n. induction H; intros [| n]; cbn; auto.
Qed.

(** A successful forecast: one line per period, the first four only, each
    with the literal of the source between temperature and unit. *)
Lemma get_forecast_lines (latitude longitude : value)
    (lat lon : PrimFloat.float) (log : list value) (second : value)
    (periods : list value) (fields : list (list (string * value))) :
  float latitude = inr lat ->
  float longitude = inr lon ->
  let first := VStr (points_url lat lon) in
  path "properties" "forecast" (response net log first) = Some second ->
  path "properties" "periods" (response net (log ++ [first]) second)
    = Some (VList periods) ->
  Forall2 (fun p f => fields_of p = Some f) periods fields ->
  get_forecast net latitude longitude log =
    (Ret (String.concat Str.nl (map (period_line degree_literal) (firstn 4 fields))),
     (log ++ [first; second])%list)
  /\ length (firstn 4 fields) = Nat.min 4 (length periods).
Proof.
  intros Hlat Hlon first Hpath Hper Hall. split.
  - rewrite (get_forecast_after_coercion _ _ _ _ log Hlat Hlon).
    unfold bind, _get_json. fold first.
    destruct (path_found _ _ _ _ Hpath) as [Hl [inner [H1 H2]]].
    rewrite Hl. cbn [lift]. rewrite H1. cbn [lift]. rewrite H2. cbn [lift].
    destruct (path_found _ _ _ _ Hper) as [Hl' [inner' [H1' H2']]].
    rewrite Hl'. cbn [lift]. rewrite H1'. cbn [lift]. rewrite H2'.
    cbn [lift slice_to iter].
    rewrite (for_each_lines _ _ (Forall2_firstn _ 4 _ _ Hall)).
    cbn [ret]. rewrite <- app_assoc. reflexivity.
  - rewrite length_firstn. rewrite (Forall2_length Hall). reflexivity.
Qed.

End Server.

(** ** Runs on the sample inputs *)


(** C3 at work: three letters, and no letter at all. *)
Lemma three_letters_are_rejected :
  String.length "CAL" <> 2 /\
  get_alerts (B := Sample.runtime) (Sample.always None) "CAL" [] = (Ret guidance, []) /\
  get_alerts (B := Sample.runtime) (Sample.always None) "" [] = (Ret guidance, []).
Proof.
  split; [discriminate | split];
    apply get_alerts_rejects_other_lengths; discriminate.
Defined.

(** C6 at work: an empty feature list, a failed fetch, and a body without
    the key. *)
Lemma empty_list_and_no_data :
  get_alerts (B := Sample.runtime)
    (Sample.always (Some (VDict [("features", VList [])]))) "ca" []
  = (Ret no_active_alerts, [Sample.alerts_ca])
  /\
  get_alerts (B := Sample.runtime) (Sample.always None) "ca" []
  = (Ret unable_to_fetch, [Sample.alerts_ca])
  /\
  get_alerts (B := Sample.runtime)
    (Sample.always (Some (VDict [("title", VStr "no such area")]))) "ca" []
  = (Ret unable_to_fetch, [Sample.alerts_ca]).
Proof.
  split; [| split].
  - apply (proj1 (get_alerts_none_or_unavailable (B := Sample.runtime) _ "ca" [] eq_refl)).
    exists [("features", VList [])]. split; reflexivity.
  - apply (proj2 (get_alerts_none_or_unavailable (B := Sample.runtime) _ "ca" [] eq_refl)).
    left. reflexivity.
  - apply (proj2 (get_alerts_none_or_unavailable (B := Sample.runtime) _ "ca" [] eq_refl)).
    right. exists [("title", VStr "no such area")]. split; reflexivity.
Defined.

(** C10 at work: ["features": null]. *)
Lemma null_features_read_as_none :
  get_alerts (B := Sample.runtime)
    (Sample.always (Some (VDict [("features", VNone)]))) "CA" []
  = (Ret no_active_alerts, [Sample.alerts_ca]).
Proof.
  apply (get_alerts_falsy_features (B := Sample.runtime) _ "CA" []
           [("features", VNone)] VNone); reflexivity.
Defined.

(** C1 at work: two features give two blocks.  The [null] instruction of
    the first is present, so it is shown as [None]; the second has no
    properties and shows the five placeholders. *)
Lemma two_alerts_two_blocks :
  get_alerts (B := Sample.runtime) (Sample.always (Some Sample.two_alerts)) "CA" []
  = (Ret ("Event: Flood Warning" ++ Str.nl ++
          "Area: Marin" ++ Str.nl ++
          "Severity: Severe" ++ Str.nl ++
          "Description: No description available" ++ Str.nl ++
          "Instructions: None" ++
          Str.nl ++ Str.nl ++ "---" ++ Str.nl ++ Str.nl ++
          "Event: Unknown" ++ Str.nl ++
          "Area: Unknown" ++ Str.nl ++
          "Severity: Unknown" ++ Str.nl ++
          "Description: No description available" ++ Str.nl ++
          "Instructions: No specific instructions provided"),
     [Sample.alerts_ca]).
Proof.
  apply (get_alerts_blocks (B := Sample.runtime)
           (Sample.always (Some Sample.two_alerts)) "CA" []
           [("features", VList Sample.alert_features)] Sample.alert_features
           [ [("event", VStr "Flood Warning"); ("areaDesc", VStr "Marin");
              ("severity", VStr "Severe"); ("instruction", VNone)]; [] ]);
    try reflexivity.
  - discriminate.
  - repeat constructor.
Defined.

(** C1 as stated fails on a feature whose ["properties"] is [null]: the
    fetch succeeded and the body holds one feature, but [_format_alert]
    calls [get] on [None] and the handler raises instead of returning a
    block. *)
Lemma null_properties_raise :
  get_alerts (B := Sample.runtime) (Sample.always (Some Sample.null_properties)) "CA" []
  = (Raise AttributeError, [Sample.alerts_ca]).
Proof. reflexivity. Qed.

(** C9 at work: a text that is no number, a missing longitude, and two
    texts that convert. *)
Lemma invalid_or_fetched :
  get_forecast (B := Sample.runtime) (Sample.always None) (VStr "north") (VFloat Sample.lon) []
  = (Ret invalid_coordinates, [])
  /\
  get_forecast (B := Sample.runtime) (Sample.always None) (VFloat Sample.lat) VNone []
  = (Ret invalid_coordinates, [])
  /\
  exists out more,
    get_forecast (B := Sample.runtime) (Sample.always None)
      (VStr "37.78") (VStr "-122.42") []
    = (out, Sample.points_sf :: more).
Proof.
  split; [| split].
  - apply (proj1 (get_forecast_coerces_first (B := Sample.runtime) _ _ _ [])).
    left. eexists. reflexivity.
  - apply (proj1 (get_forecast_coerces_first (B := Sample.runtime) _ _ _ [])).
    right. eexists. reflexivity.
  - apply (proj2 (get_forecast_coerces_first (B := Sample.runtime) _
                    (VStr "37.78") (VStr "-122.42") []) Sample.lat Sample.lon);
      reflexivity.
Defined.

(** C4 at work: a failed points lookup, a points body without a forecast
    URL, and a failed second fetch. *)
Lemma each_step_has_its_message :
  get_forecast (B := Sample.runtime) (Sample.always None)
    (VFloat Sample.lat) (VFloat Sample.lon) []
  = (Ret unable_to_resolve, [Sample.points_sf])
  /\
  get_forecast (B := Sample.runtime)
    (Sample.always (Some (VDict [("properties", VDict [("gridId", VStr "MTR")])])))
    (VFloat Sample.lat) (VFloat Sample.lon) []
  = (Ret unable_to_resolve, [Sample.points_sf])
  /\
  get_forecast (B := Sample.runtime) (Sample.forecast_service None)
    (VFloat Sample.lat) (VFloat Sample.lon) []
  = (Ret unable_to_fetch_periods, [Sample.points_sf; VStr Sample.forecast_at]).
Proof.
  split; [| split].
  - apply (proj1 (get_forecast_failure_by_step (B := Sample.runtime) _
                    (VFloat Sample.lat) (VFloat Sample.lon)
                    Sample.lat Sample.lon [] eq_refl eq_refl)). reflexivity.
  - apply (proj1 (get_forecast_failure_by_step (B := Sample.runtime) _
                    (VFloat Sample.lat) (VFloat Sample.lon)
                    Sample.lat Sample.lon [] eq_refl eq_refl)). reflexivity.
  - apply (proj2 (get_forecast_failure_by_step (B := Sample.runtime) _
                    (VFloat Sample.lat) (VFloat Sample.lon)
                    Sample.lat Sample.lon [] eq_refl eq_refl)); reflexivity.
Defined.

(** C4 as stated fails on a points body whose ["properties"] is [null]:
    the body has no [properties.forecast], but ["forecast" not in None]
    raises [TypeError] and no "unable to resolve" string is returned. *)
Lemma null_point_properties_raise :
  path "properties" "forecast" (VDict [("properties", VNone)]) = None /\
  get_forecast (B := Sample.runtime)
    (Sample.always (Some (VDict [("properties", VNone)])))
    (VFloat Sample.lat) (VFloat Sample.lon) []
  = (Raise TypeError, [Sample.points_sf]).
Proof. split; reflexivity. Qed.

(** C5.  On a successful forecast with one period the line returned holds,
    between the temperature and its unit, the two code points U+00C2
    U+00B0 that the source has in its f-string, where the format of the
    specification has the degree sign U+00B0 alone. *)
Theorem forecast_line_carries_the_literal :
  get_forecast (B := Sample.runtime)
    (Sample.forecast_service (Some (Sample.forecast_body [Sample.tonight])))
    (VFloat Sample.lat) (VFloat Sample.lon) []
  = (Ret ("Tonight: Clear (55" ++ degree_literal ++ "F) Wind 5 mph"),
     [Sample.points_sf; VStr Sample.forecast_at])
  /\ String.length degree_literal = 2
  /\ String.length degree_sign = 1
  /\ "Tonight: Clear (55" ++ degree_literal ++ "F) Wind 5 mph"
     <> "Tonight: Clear (55" ++ degree_sign ++ "F) Wind 5 mph".
Proof. repeat split; try reflexivity. discriminate. Qed.

End WeatherFacts.

(* ------------------------------------------------------------------ *)
(** * The client loop *)

Module ClientFacts.
Import Py Client StrFacts.

Section Repl.
Context {B : Builtins}.
Variable call_tool : list event -> string -> list (string * value) -> call_outcome.

Lemma eqb_false (s t : string) : s <> t -> String.eqb s t = false.
Proof. intros H. apply String.eqb_neq. exact H. Qed.

(** What an iteration does with a line that is neither empty nor [quit]. *)
Lemma iteration_dispatches (raw : string) (hist : list event) :
  Str.strip raw <> "" ->
  Str.lower (Str.strip raw) <> "quit" ->
  iteration call_tool (Line raw) hist =
  match dispatch call_tool (Str.strip raw) hist with
  | (evs, None) => (AwaitingInput, evs)
  | (evs, Some e) =>
      if is_Exception e
      then (AwaitingInput, (evs ++ [Printed ("Error: " ++ message e)])%list)
      else (Aborted, evs)
  end.
Proof.
  intros H1 H2. unfold iteration. cbv zeta.
  rewrite (eqb_false _ _ H1), (eqb_false _ _ H2). reflexivity.
Qed.

(** C8.  From [AwaitingInput], a line that reads [quit] in any letter case
    closes the loop and produces no event, so no tool call; a line that is
    empty once stripped produces no event either and the loop goes on to
    the next prompt in the same state. *)
Theorem quit_closes_and_empty_reprompts (raw : string) (hist : list event)
    (rest : list input_event) :
  (Str.lower raw = "quit" ->
   iteration call_tool (Line raw) hist = (Closed, []) /\
   main_loop call_tool (Line raw :: rest) hist = (Closed, (hist ++ [Prompt])%list))
  /\
  (Str.strip raw = "" ->
   iteration call_tool (Line raw) hist = (AwaitingInput, []) /\
   main_loop call_tool (Line raw :: rest) hist =
   main_loop call_tool rest (hist ++ [Prompt])%list).
Proof.
  split.
  - intros Hq.
    assert (Hit : forall h, iteration call_tool (Line raw) h = (Closed, [])).
    { intros h. unfold iteration. cbv zeta. rewrite (quit_is_stripped raw Hq).
      destruct raw; [discriminate |]. cbn [String.eqb]. rewrite Hq. reflexivity. }
    split; [apply Hit |]. cbn [main_loop]. rewrite Hit. rewrite app_nil_r. reflexivity.
  - intros He.
    assert (Hit : forall h, iteration call_tool (Line raw) h = (AwaitingInput, [])).
    { intros h. unfold iteration. cbv zeta. rewrite He. reflexivity. }
    split; [apply Hit |]. cbn [main_loop]. rewrite Hit. rewrite app_nil_r. reflexivity.
Qed.

Lemma forecast_is_not_alerts (q : string) :
  String.prefix "forecast " q = true -> String.prefix "alerts " q = false.
Proof.
  intros H. destruct (prefix_append _ _ H) as [r ->]. reflexivity.
Qed.

Lemma call_and_print_calls (hist : list event) (name : string)
    (arguments : list (string * value)) :
  exists more raised,
    call_and_print call_tool hist name arguments = (Called name arguments :: more, raised).
Proof.
  unfold call_and_print.
  destruct (first_text (call_tool hist name arguments)); eexists; eexists; reflexivity.
Qed.

(** C2, as amended.  A line that starts with [forecast ] and does not
    split into exactly three tokens prints the usage message and leaves
    the client in [AwaitingInput] without a tool call.  A line that starts
    with [alerts ] is always forwarded: [get_alerts] is called with the
    rest of the line as the state, however many tokens it holds.  Any
    other line that is neither empty nor [quit] prints the "unknown
    command" message. *)
Theorem usage_only_for_forecast (raw : string) (hist : list event) :
  let q := Str.strip raw in
  (String.prefix "forecast " q = true ->
   length (Str.split q) <> 3 ->
   iteration call_tool (Line raw) hist = (AwaitingInput, [Printed usage]))
  /\
  (String.prefix "alerts " q = true ->
   exists rest next more,
     q = "alerts " ++ rest /\
     iteration call_tool (Line raw) hist =
     (next, Called "get_alerts" [("state", VStr (Str.lstrip rest))] :: more))
  /\
  (q <> "" ->
   Str.lower q <> "quit" ->
   String.prefix "alerts " q = false ->
   String.prefix "forecast " q = false ->
   iteration call_tool (Line raw) hist = (AwaitingInput, [Printed unknown_command])).
Proof.
  intros q. assert (Eq : Str.strip raw = q) by reflexivity. clearbody q.
  split; [| split].
  - intros Hp Hn.
    assert (Hq : q <> "").
    { intros E. rewrite E in Hp. discriminate. }
    rewrite <- Eq in Hq.
    rewrite (iteration_dispatches raw hist Hq); rewrite Eq;
      [| exact (lower_not_quit _ q Hp ltac:(cbn; lia))].
    unfold dispatch. rewrite (forecast_is_not_alerts q Hp), Hp. cbv zeta.
    apply Nat.eqb_neq in Hn. rewrite Hn. reflexivity.
  - intros Hp.
    assert (Hq : q <> "").
    { intros E. rewrite E in Hp. discriminate. }
    rewrite <- Eq in Hq.
    rewrite (iteration_dispatches raw hist Hq); rewrite Eq;
      [| exact (lower_not_quit _ q Hp ltac:(cbn; lia))].
    unfold dispatch. rewrite Hp.
    destruct (prefix_append _ _ Hp) as [rest Hrest].
    assert (Hr : Str.lstrip rest <> "").
    { apply (stripped_rest raw "alerts" rest). rewrite Eq. exact Hrest. }
    rewrite Hrest. rewrite (split_max1_alerts rest Hr). cbn [unpack2].
    destruct (call_and_print_calls hist "get_alerts" [("state", VStr (Str.lstrip rest))])
      as [more [r Hc]].
    rewrite Hc. exists rest.
    destruct r as [e |]; [destruct (is_Exception e) |]; eexists; eexists;
      (split; [reflexivity | reflexivity]).
  - intros Hq Hl Ha Hf. rewrite <- Eq in Hq, Hl.
    rewrite (iteration_dispatches raw hist Hq Hl). rewrite Eq.
    unfold dispatch. rewrite Ha, Hf. reflexivity.
Qed.

(** Whatever [dispatch] raises without a call having raised it is an
    [Exception]. *)
Lemma dispatch_raises (q : string) (hist : list event) (evs : list event) (e : raised) :
  dispatch call_tool q hist = (evs, Some e) ->
  is_Exception e = true \/
  exists name arguments, call_tool hist name arguments = Raised e.
Proof.
  assert (Hc : forall name arguments,
             call_and_print call_tool hist name arguments = (evs, Some e) ->
             is_Exception e = true \/
             exists name arguments, call_tool hist name arguments = Raised e).
  { intros name arguments. unfold call_and_print, first_text.
    destruct (call_tool hist name arguments) as [[| [text | cls] blocks] | e'] eqn:Hcall;
      intros H; try discriminate H; injection H as _ <-; auto.
    right. exists name, arguments. exact Hcall. }
  unfold dispatch.
  destruct (String.prefix "alerts " q).
  - unfold unpack2.
    destruct (Str.split_max1 q) as [| a [| b [| c l]]]; cbn;
      try (intros H; injection H as _ <-; auto); apply Hc.
  - destruct (String.prefix "forecast " q); [| discriminate].
    cbv zeta. destruct (negb _); [discriminate |].
    destruct (float_of_str _) as [msg | lat]; [intros H; injection H as _ <-; auto |].
    destruct (float_of_str _) as [msg | lon]; [intros H; injection H as _ <-; auto |].
    apply Hc.
Qed.

(** C7.  When dispatching a line raises an error (an exception of class
    [Exception]), the iteration prints it after the prefix [Error: ], the
    client stays in [AwaitingInput] and the loop goes on with the next
    line; a latitude or longitude that [float()] refuses is such an
    error, printed with the message of its [ValueError], and no tool call
    is made. *)
Theorem dispatch_errors_are_printed (raw : string) (prior : list event)
    (rest : list input_event) :
  let q := Str.strip raw in
  let hist := (prior ++ [Prompt])%list in
  q <> "" ->
  Str.lower q <> "quit" ->
  (forall evs e,
     dispatch call_tool q hist = (evs, Some e) ->
     is_Exception e = true ->
     iteration call_tool (Line raw) hist =
       (AwaitingInput, (evs ++ [Printed ("Error: " ++ message e)])%list) /\
     main_loop call_tool (Line raw :: rest) prior =
       main_loop call_tool rest
         (hist ++ evs ++ [Printed ("Error: " ++ message e)])%list)
  /\
  (forall word a b msg,
     String.prefix "forecast " q = true ->
     Str.split q = [word; a; b] ->
     (float_of_str a = inl msg \/
      (exists lat, float_of_str a = inr lat) /\ float_of_str b = inl msg) ->
     iteration call_tool (Line raw) hist = (AwaitingInput, [Printed ("Error: " ++ msg)])).
Proof.
  intros q hist Hq Hl. split.
  - intros evs e Hd He.
    assert (Hit : iteration call_tool (Line raw) hist =
                  (AwaitingInput, (evs ++ [Printed ("Error: " ++ message e)])%list)).
    { rewrite (iteration_dispatches raw hist Hq Hl). fold q. rewrite Hd, He. reflexivity. }
    split; [exact Hit |]. cbn [main_loop]. fold hist. rewrite Hit. reflexivity.
  - intros word a b msg Hp Hs Hf.
    rewrite (iteration_dispatches raw hist Hq Hl). fold q.
    unfold dispatch. rewrite (forecast_is_not_alerts q Hp), Hp. cbv zeta.
    rewrite Hs. cbn [length Nat.eqb negb nth].
    destruct Hf as [Ha | [[lat Ha] Hb]].
    + rewrite Ha. reflexivity.
    + rewrite Ha, Hb. reflexivity.
Qed.

(** With a server whose failures are all of class [Exception], no line
    that is not [quit] ends the loop. *)
Lemma iteration_never_aborts (raw : string) (hist : list event) :
  (forall h name arguments e,
     call_tool h name arguments = Raised e -> is_Exception e = true) ->
  Str.lower (Str.strip raw) <> "quit" ->
  fst (iteration call_tool (Line raw) hist) = AwaitingInput.
Proof.
  intros Hsrv Hl. unfold iteration. cbv zeta.
  destruct (String.eqb (Str.strip raw) ""); [reflexivity |].
  rewrite (eqb_false _ _ Hl).
  destruct (dispatch call_tool (Str.strip raw) hist) as [evs [e |]] eqn:Hd;
    [| reflexivity].
  assert (He : is_Exception e = true).
  { destruct (dispatch_raises _ _ _ _ Hd) as [He | [name [arguments Hc]]];
      [exact He | exact (Hsrv _ _ _ _ Hc)]. }
  rewrite He. reflexivity.
Qed.

(** X12.  With a server whose failures are all of class [Exception], no
    script of lines without [quit] ends the loop: after them the client
    is still waiting for input. *)
Lemma main_loop_stays_open (inputs : list input_event) (hist : list event) :
  (forall h name arguments e,
     call_tool h name arguments = Raised e -> is_Exception e = true) ->
  Forall (fun ev => exists raw, ev = Line raw /\ Str.lower (Str.strip raw) <> "quit") inputs ->
  fst (main_loop call_tool inputs hist) = AwaitingInput.
Proof.
  intros Hsrv Hall. revert hist.
  induction Hall as [| ev rest [raw [-> Hq]] _ IH]; intros hist; [reflexivity |].
  cbn [main_loop].
  pose proof (iteration_never_aborts raw (hist ++ [Prompt])%list Hsrv Hq) as Hit.
  destruct (iteration call_tool (Line raw) (hist ++ [Prompt])%list) as [st evs].
  cbn in Hit. subst st. apply IH.
Qed.

End Repl.

(** ** Runs on sample lines *)

(** C8 at work: [QuIt] closes; a blank line is skipped and [QUIT] then
    closes before the third line is read. *)
Lemma quit_in_mixed_case_and_blank_line :
  iteration (B := Sample.runtime) (Sample.session "ok") (Line "QuIt") [Prompt]
    = (Closed, [])
  /\
  main_loop (B := Sample.runtime) (Sample.session "ok") [Line "   "; Line "QUIT"; Line "alerts CA"] []
    = (Closed, [Prompt; Prompt]).
Proof.
  split.
  - apply (proj1 (quit_closes_and_empty_reprompts (B := Sample.runtime)
                    (Sample.session "ok") "QuIt" [Prompt] [])). reflexivity.
  - rewrite (proj2 (proj2 (quit_closes_and_empty_reprompts (B := Sample.runtime)
                             (Sample.session "ok") "   " []
                             [Line "QUIT"; Line "alerts CA"]) eq_refl)).
    apply (proj1 (quit_closes_and_empty_reprompts (B := Sample.runtime)
                    (Sample.session "ok") "QUIT" [Prompt] [Line "alerts CA"])).
    reflexivity.
Defined.

(** C2 (amended) at work: too many and too few coordinates, an alerts line
    with two codes, and a line that is no command. *)
Lemma wrong_arity_and_other_lines :
  iteration (B := Sample.runtime) (Sample.session "ok") (Line "forecast 1 2 3") []
    = (AwaitingInput, [Printed usage])
  /\
  iteration (B := Sample.runtime) (Sample.session "ok") (Line "forecast 37.78") []
    = (AwaitingInput, [Printed usage])
  /\
  (exists rest next more,
     Str.strip "alerts CA NY" = "alerts " ++ rest /\
     iteration (B := Sample.runtime) (Sample.session "ok") (Line "alerts CA NY") []
     = (next, Called "get_alerts" [("state", VStr (Str.lstrip rest))] :: more))
  /\
  iteration (B := Sample.runtime) (Sample.session "ok") (Line "help") []
    = (AwaitingInput, [Printed unknown_command]).
Proof.
  split; [| split; [| split]].
  - apply (proj1 (usage_only_for_forecast (B := Sample.runtime)
                    (Sample.session "ok") "forecast 1 2 3" [])).
    + reflexivity.
    + vm_compute. discriminate.
  - apply (proj1 (usage_only_for_forecast (B := Sample.runtime)
                    (Sample.session "ok") "forecast 37.78" [])).
    + reflexivity.
    + vm_compute. discriminate.
  - apply (proj1 (proj2 (usage_only_for_forecast (B := Sample.runtime)
                           (Sample.session "ok") "alerts CA NY" []))).
    reflexivity.
  - apply (proj2 (proj2 (usage_only_for_forecast (B := Sample.runtime)
                           (Sample.session "ok") "help" []))).
    + vm_compute. discriminate.
    + vm_compute. discriminate.
    + reflexivity.
    + reflexivity.
Defined.

(** C2 as stated fails for [alerts]: with two codes the line is not
    answered by a usage message but forwarded to the tool, and with no
    code at all it (like a bare [forecast]) is an unknown command. *)
Lemma alerts_line_is_always_forwarded :
  iteration (B := Sample.runtime) (Sample.session Spec.guidance) (Line "alerts CA NY") []
    = (AwaitingInput,
       [Called "get_alerts" [("state", VStr "CA NY")]; Printed Spec.guidance])
  /\
  iteration (B := Sample.runtime) (Sample.session Spec.guidance) (Line "alerts") []
    = (AwaitingInput, [Printed unknown_command])
  /\
  iteration (B := Sample.runtime) (Sample.session Spec.guidance) (Line "forecast") []
    = (AwaitingInput, [Printed unknown_command]).
Proof. split; [| split]; reflexivity. Qed.

(** C7 at work: a latitude that is no number, and a call that fails; the
    loop reads the next line in both cases. *)
Lemma bad_number_and_failed_call :
  iteration (B := Sample.runtime) (Sample.session "ok") (Line "forecast north 1") [Prompt]
    = (AwaitingInput, [Printed "Error: could not convert string to float: 'north'"])
  /\
  main_loop (B := Sample.runtime) (Sample.broken_session "Connection closed")
    [Line "alerts CA"; Line "quit"] []
    = (Closed,
       [Prompt; Called "get_alerts" [("state", VStr "CA")];
        Printed "Error: Connection closed"; Prompt]).
Proof.
  split.
  - apply (proj2 (dispatch_errors_are_printed (B := Sample.runtime)
                    (Sample.session "ok") "forecast north 1" [] []
                    ltac:(vm_compute; discriminate) ltac:(vm_compute; discriminate))
             "forecast" "north" "1").
    + reflexivity.
    + reflexivity.
    + left. reflexivity.
  - rewrite (proj2 (proj1 (dispatch_errors_are_printed (B := Sample.runtime)
                             (Sample.broken_session "Connection closed")
                             "alerts CA" [] [Line "quit"]
                             ltac:(vm_compute; discriminate)
                             ltac:(vm_compute; discriminate))
                      [Called "get_alerts" [("state", VStr "CA")]]
                      (error "Connection closed") eq_refl eq_refl)).
    reflexivity.
Defined.

End ClientFacts.

(* ------------------------------------------------------------------ *)
(** * More on the tool handlers *)

Module WeatherMore.
Import Py Weather Spec Shape WeatherFacts.

Section Server.
Context {B : Builtins}.
Variable net : list value -> string -> option value.

(** ** The tail of each handler, after its fetches *)

Lemma get_alerts_after_features (state : string) (log : list value)
    (d : list (string * value)) (v : value) :
  String.length state = 2 ->
  response net log (VStr (alerts_url state)) = VDict d ->
  lookup "features" d = Some v ->
  truthy v = true ->
  get_alerts net state log =
  (outcome_of (fs <~ iter v ;;
               blocks <~ for_each _format_alert fs ;;
               inr (String.concat alerts_separator blocks)),
   (log ++ [VStr (alerts_url state)])%list).
Proof.
  intros H Hd Hf Hv. rewrite (get_alerts_after_fetch net state log H).
  unfold bind, _get_json. rewrite Hd.
  rewrite (lookup_truthy _ _ _ Hf). unfold lift. simpl. rewrite Hf. simpl.
  rewrite Hv. cbn [negb].
  destruct (iter v) as [e | fs]; [reflexivity |]. cbn [and_then lift].
  destruct (for_each _format_alert fs); reflexivity.
Qed.

Lemma get_forecast_after_periods (latitude longitude : value)
    (lat lon : PrimFloat.float) (log : list value) (second v : value) :
  float latitude = inr lat ->
  float longitude = inr lon ->
  let first := VStr (points_url lat lon) in
  path "properties" "forecast" (response net log first) = Some second ->
  path "properties" "periods" (response net (log ++ [first]) second) = Some v ->
  get_forecast net latitude longitude log =
  (outcome_of (periods <~ slice_to 4 v ;;
               ps <~ iter periods ;;
               lines <~ for_each format_period ps ;;
               inr (String.concat Str.nl lines)),
   (log ++ [first; second])%list).
Proof.
  intros Hlat Hlon first Hpath Hper.
  rewrite (get_forecast_after_coercion net _ _ _ _ log Hlat Hlon).
  unfold bind, _get_json. fold first.
  destruct (path_found _ _ _ _ Hpath) as [Hl [inner [H1 H2]]].
  rewrite Hl. cbn [lift]. rewrite H1. cbn [lift]. rewrite H2. cbn [lift].
  destruct (path_found _ _ _ _ Hper) as [Hl' [inner' [H1' H2']]].
  rewrite Hl'. cbn [lift]. rewrite H1'. cbn [lift]. rewrite H2'. cbn [lift].
  rewrite <- app_assoc. cbn [app].
  destruct (slice_to 4 v) as [e | periods]; [reflexivity |]. cbn [and_then lift].
  destruct (iter periods) as [e | ps]; [reflexivity |]. cbn [and_then lift].
  destruct (for_each format_period ps); reflexivity.
Qed.

(** ** Which elements make the loops raise *)

Lemma format_period_object (p : value) :
  format_period p =
  match fields_of p with
  | Some fields => inr (period_line degree_literal fields)
  | None => inl AttributeError
  end.
Proof.
  destruct p; try reflexivity.
  cbn [fields_of]. apply format_period_line. reflexivity.
Qed.

Lemma format_alert_shape (feature : value) :
  _format_alert feature =
  match properties_of feature with
  | Some props => inr (alert_block props)
  | None => inl AttributeError
  end.
Proof.
  destruct (properties_of feature) as [props |] eqn:Hp.
  - apply format_alert_block. exact Hp.
  - unfold properties_of in Hp. unfold _format_alert.
    destruct feature as [ | | | | | | d]; try reflexivity.
    cbn [get and_then].
    destruct (lookup "properties" d) as [[ | | | | | | inner] |];
      try discriminate; reflexivity.
Qed.

(** A loop over elements of which one has no reading raises at it. *)
Lemma for_each_raises {A C} (f : A -> exn + C) (read : A -> option C) (e : exn)
    (l : list A) :
  (forall x, f x = match read x with Some y => inr y | None => inl e end) ->
  Exists (fun x => read x = None) l ->
  for_each f l = inl e.
Proof.
  intros Hf. induction 1 as [x l Hx | x l _ IH]; cbn [for_each].
  - rewrite Hf, Hx. reflexivity.
  - rewrite Hf. destruct (read x); [| reflexivity].
    cbn [and_then]. rewrite IH. reflexivity.
Qed.

(** ** get_forecast *)

(** X1.  On a successful forecast only the first four periods are read:
    when these are objects, [get_forecast] returns one line for each, in
    order, joined by newlines, whatever the periods after the fourth are;
    the number of lines is the smaller of 4 and the number of periods. *)
Theorem get_forecast_first_four (latitude longitude : value)
    (lat lon : PrimFloat.float) (log : list value) (second : value)
    (periods : list value) (fields : list (list (string * value))) :
  float latitude = inr lat ->
  float longitude = inr lon ->
  let first := VStr (points_url lat lon) in
  path "properties" "forecast" (response net log first) = Some second ->
  path "properties" "periods" (response net (log ++ [first]) second)
    = Some (VList periods) ->
  Forall2 (fun p f => fields_of p = Some f) (firstn 4 periods) fields ->
  get_forecast net latitude longitude log =
    (Ret (String.concat Str.nl (map (period_line degree_literal) fields)),
     (log ++ [first; second])%list)
  /\ length fields = Nat.min 4 (length periods).
Proof.
  intros Hlat Hlon first Hpath Hper Hall. split.
  - rewrite (get_forecast_after_periods _ _ _ _ log second _ Hlat Hlon Hpath Hper).
    cbn [slice_to and_then iter].
    rewrite (for_each_lines _ _ Hall). reflexivity.
  - rewrite <- (Forall2_length Hall). apply length_firstn.
Qed.

(** X2.  When one of the first four periods is no object, [get_forecast]
    raises [AttributeError] after its two requests and returns no line at
    all. *)
Theorem get_forecast_bad_period_raises (latitude longitude : value)
    (lat lon : PrimFloat.float) (log : list value) (second : value)
    (periods : list value) :
  float latitude = inr lat ->
  float longitude = inr lon ->
  let first := VStr (points_url lat lon) in
  path "properties" "forecast" (response net log first) = Some second ->
  path "properties" "periods" (response net (log ++ [first]) second)
    = Some (VList periods) ->
  Exists (fun p => is_object p = false) (firstn 4 periods) ->
  get_forecast net latitude longitude log =
    (Raise AttributeError, (log ++ [first; second])%list).
Proof.
  intros Hlat Hlon first Hpath Hper Hbad.
  rewrite (get_forecast_after_periods _ _ _ _ log second _ Hlat Hlon Hpath Hper).
  cbn [slice_to and_then iter].
  rewrite (for_each_raises format_period
             (fun p => option_map (period_line degree_literal) (fields_of p))
             AttributeError).
  - reflexivity.
  - intros p. rewrite format_period_object. destruct (fields_of p); reflexivity.
  - apply (Exists_impl (P := fun p => is_object p = false)); [| exact Hbad].
    intros [ | | | | | | d]; cbn; congruence.
Qed.

(** X3.  The check before the loop only asks whether the key ["periods"]
    is there: when its value is neither a list nor the empty string
    ([null], a number, an object, a text), [get_forecast] raises after its
    two requests. *)
Theorem get_forecast_periods_of_another_type (latitude longitude : value)
    (lat lon : PrimFloat.float) (log : list value) (second v : value) :
  float latitude = inr lat ->
  float longitude = inr lon ->
  let first := VStr (points_url lat lon) in
  path "properties" "forecast" (response net log first) = Some second ->
  path "properties" "periods" (response net (log ++ [first]) second) = Some v ->
  is_list v = false ->
  v <> VStr "" ->
  exists e,
    get_forecast net latitude longitude log =
    (Raise e, (log ++ [first; second])%list).
Proof.
  intros Hlat Hlon first Hpath Hper Hl Hs.
  rewrite (get_forecast_after_periods _ _ _ _ log second _ Hlat Hlon Hpath Hper).
  destruct v as [ | b | z | f | s | l | d]; try discriminate;
    try (eexists; reflexivity).
  destruct s as [| c s]; [contradiction |]. exists AttributeError. reflexivity.
Qed.

(** X4.  The forecast URL is passed to [_get_json] as it is found: when it
    is no string the second call yields no data, and [get_forecast]
    answers "Unable to fetch forecast periods." instead of raising. *)
Theorem get_forecast_url_not_text (latitude longitude : value)
    (lat lon : PrimFloat.float) (log : list value) (second : value) :
  float latitude = inr lat ->
  float longitude = inr lon ->
  let first := VStr (points_url lat lon) in
  path "properties" "forecast" (response net log first) = Some second ->
  is_text second = false ->
  get_forecast net latitude longitude log =
    (Ret unable_to_fetch_periods, (log ++ [first; second])%list).
Proof.
  intros Hlat Hlon first Hpath Ht.
  rewrite (get_forecast_after_coercion net _ _ _ _ log Hlat Hlon).
  unfold bind, _get_json. fold first.
  destruct (path_found _ _ _ _ Hpath) as [Hl [inner [H1 H2]]].
  rewrite Hl. cbn [lift]. rewrite H1. cbn [lift]. rewrite H2. cbn [lift].
  rewrite <- app_assoc. cbn [app].
  destruct second; try discriminate; reflexivity.
Qed.

(** X5.  [get_forecast] only adds to the log of requests, at most two
    entries, and it adds none exactly when a coordinate fails to convert. *)
Theorem get_forecast_requests (latitude longitude : value) (log : list value) :
  exists added,
    snd (get_forecast net latitude longitude log) = (log ++ added)%list /\
    length added <= 2 /\
    (added = [] <->
     (exists e, float latitude = inl e) \/ (exists e, float longitude = inl e)).
Proof.
  unfold get_forecast.
  destruct (float latitude) as [e1 | lat].
  { exists []. cbn. rewrite app_nil_r. repeat split; eauto. }
  destruct (float longitude) as [e2 | lon].
  { exists []. cbn. rewrite app_nil_r. repeat split; eauto. }
  cbn [and_then]. unfold bind, _get_json, lift, ret.
  assert (Hno : forall l : list value, l <> [] ->
            (l = [] <->
             (exists e : exn, @inr exn _ lat = inl e) \/
             (exists e : exn, @inr exn _ lon = inl e))).
  { intros l Hl. split; [contradiction |].
    intros [[e He] | [e He]]; discriminate. }
  repeat match goal with
         | |- context [match ?r with inl _ => _ | inr _ => _ end] =>
             destruct r as [? | ?]
         | |- context [if ?b then _ else _] => destruct b
         end; cbn [snd];
    try (rewrite <- app_assoc; cbn [app]);
    eexists; (split; [reflexivity | split; [cbn; lia | apply Hno; discriminate]]).
Qed.

(** ** get_alerts *)

(** X6.  For a state code of two characters [get_alerts] makes exactly one
    request, to the alerts URL of the upper-cased code, whatever comes
    back and whether it then returns or raises. *)
Theorem get_alerts_one_request (state : string) (log : list value) :
  String.length state = 2 ->
  snd (get_alerts net state log) = (log ++ [VStr (alerts_url state)])%list.
Proof.
  intros H. rewrite (get_alerts_after_fetch net state log H).
  unfold bind, _get_json, lift, ret.
  repeat match goal with
         | |- context [match ?r with inl _ => _ | inr _ => _ end] =>
             destruct r as [? | ?]
         | |- context [if ?b then _ else _] => destruct b
         end; reflexivity.
Qed.


(** X8.  One feature that [_format_alert] cannot read spoils the whole
    answer: [get_alerts] raises [AttributeError] and returns no block,
    not even those of the features before it. *)
Theorem get_alerts_bad_feature_raises (state : string) (log : list value)
    (d : list (string * value)) (feats : list value) :
  String.length state = 2 ->
  response net log (VStr (alerts_url state)) = VDict d ->
  lookup "features" d = Some (VList feats) ->
  Exists (fun f => properties_of f = None) feats ->
  get_alerts net state log =
    (Raise AttributeError, (log ++ [VStr (alerts_url state)])%list).
Proof.
  intros H Hd Hf Hbad.
  assert (Hv : truthy (VList feats) = true).
  { destruct feats; [inversion Hbad | reflexivity]. }
  rewrite (get_alerts_after_features state log d _ H Hd Hf Hv).
  cbn [iter and_then].
  rewrite (for_each_raises _format_alert
             (fun f => option_map alert_block (properties_of f)) AttributeError).
  - reflexivity.
  - intros f. rewrite format_alert_shape. destruct (properties_of f); reflexivity.
  - apply (Exists_impl (P := fun f => properties_of f = None)); [| exact Hbad].
    intros f Hp. rewrite Hp. reflexivity.
Qed.

(** X9.  When ["features"] holds a truthy value that is no list (a
    number, [true], a non-empty text or object), [get_alerts] raises. *)
Theorem get_alerts_features_not_a_list (state : string) (log : list value)
    (d : list (string * value)) (v : value) :
  String.length state = 2 ->
  response net log (VStr (alerts_url state)) = VDict d ->
  lookup "features" d = Some v ->
  truthy v = true ->
  is_list v = false ->
  exists e,
    get_alerts net state log =
    (Raise e, (log ++ [VStr (alerts_url state)])%list).
Proof.
  intros H Hd Hf Hv Hl.
  rewrite (get_alerts_after_features state log d _ H Hd Hf Hv).
  destruct v as [ | b | z | f | s | l | fields]; try discriminate;
    try (exists TypeError; reflexivity).
  - destruct s as [| c s]; [discriminate |]. exists AttributeError. reflexivity.
  - destruct fields as [| kv fields]; [discriminate |].
    exists AttributeError. reflexivity.
Qed.

(** X10.  A body that is no object: a non-zero number or [true] makes
    [get_alerts] raise [TypeError] at the test [in]; an array or text
    that does not contain ["features"] gets the "unable to fetch" string;
    an array or text that contains it raises [AttributeError] at
    [data.get]. *)
Theorem get_alerts_body_not_an_object (state : string) (log : list value) :
  String.length state = 2 ->
  let url := VStr (alerts_url state) in
  let body := response net log url in
  (is_number body = true -> truthy body = true ->
   get_alerts net state log = (Raise TypeError, (log ++ [url])%list))
  /\
  (is_sequence body = true -> contains "features" body = inr false ->
   get_alerts net state log = (Ret unable_to_fetch, (log ++ [url])%list))
  /\
  (is_sequence body = true -> contains "features" body = inr true ->
   get_alerts net state log = (Raise AttributeError, (log ++ [url])%list)).
Proof.
  intros H url body. rewrite (get_alerts_after_fetch net state log H).
  unfold bind, _get_json. fold url. fold body.
  split; [| split].
  - intros Hn Ht. rewrite Ht.
    destruct body; try discriminate; reflexivity.
  - intros Hs Hc. destruct (truthy body) eqn:Ht; [| reflexivity].
    cbn [negb lift]. rewrite Hc. reflexivity.
  - intros Hs Hc.
    assert (Ht : truthy body = true).
    { destruct body as [ | | | | s | l | ]; try discriminate.
      - destruct s; [discriminate | reflexivity].
      - destruct l; [discriminate | reflexivity]. }
    rewrite Ht. cbn [negb lift]. rewrite Hc. cbn [and_then negb].
    destruct body; try discriminate; reflexivity.
Qed.

(** X11.  [get_alerts] reads its two-character code through [upper()]
    only: two codes with the same upper case get the same request and
    the same answer. *)
Theorem get_alerts_same_upper_case (s1 s2 : string) (log : list value) :
  String.length s1 = 2 ->
  String.length s2 = 2 ->
  upper s1 = upper s2 ->
  get_alerts net s1 log = get_alerts net s2 log.
Proof.
  intros H1 H2 Hu.
  rewrite (get_alerts_after_fetch net s1 log H1), (get_alerts_after_fetch net s2 log H2).
  unfold alerts_url. rewrite Hu. reflexivity.
Qed.

End Server.

(** ** Runs *)

(** X1 at work: five periods, the fifth [null]; four lines come back. *)
Lemma fifth_period_is_never_read :
  get_forecast (B := Sample.runtime)
    (Sample.forecast_service (Some (Sample.forecast_body Cases.five_periods)))
    (VFloat Sample.lat) (VFloat Sample.lon) []
  = (Ret ("Tonight: Clear (55" ++ degree_literal ++ "F) Wind 5 mph" ++ Str.nl ++
          "Friday: n/a (n/a" ++ degree_literal ++ ") Wind " ++ Str.nl ++
          "Period: n/a (n/a" ++ degree_literal ++ ") Wind " ++ Str.nl ++
          "Period: n/a (n/a" ++ degree_literal ++ ") Wind "),
     [Sample.points_sf; VStr Sample.forecast_at]).
Proof.
  apply (get_forecast_first_four (B := Sample.runtime)
           (Sample.forecast_service (Some (Sample.forecast_body Cases.five_periods)))
           (VFloat Sample.lat) (VFloat Sample.lon) Sample.lat Sample.lon []
           (VStr Sample.forecast_at) Cases.five_periods
           [ [("name", VStr "Tonight"); ("shortForecast", VStr "Clear");
              ("temperature", VInt 55); ("temperatureUnit", VStr "F");
              ("windSpeed", VStr "5 mph")];
             [("name", VStr "Friday")]; []; [] ]);
    try reflexivity.
  repeat constructor.
Defined.

(** X2 at work: the second of two periods is [null]. *)
Lemma null_period_among_the_first_raises :
  get_forecast (B := Sample.runtime)
    (Sample.forecast_service (Some (Sample.forecast_body Cases.broken_periods)))
    (VFloat Sample.lat) (VFloat Sample.lon) []
  = (Raise AttributeError, [Sample.points_sf; VStr Sample.forecast_at]).
Proof.
  apply (get_forecast_bad_period_raises (B := Sample.runtime)
           (Sample.forecast_service (Some (Sample.forecast_body Cases.broken_periods)))
           (VFloat Sample.lat) (VFloat Sample.lon) Sample.lat Sample.lon []
           (VStr Sample.forecast_at) Cases.broken_periods);
    try reflexivity.
  apply Exists_cons_tl, Exists_cons_hd. reflexivity.
Defined.

(** X3 at work: ["periods": null]. *)
Lemma null_periods_raise :
  exists e,
    get_forecast (B := Sample.runtime)
      (Sample.forecast_service (Some Cases.null_periods))
      (VFloat Sample.lat) (VFloat Sample.lon) []
    = (Raise e, [Sample.points_sf; VStr Sample.forecast_at]).
Proof.
  apply (get_forecast_periods_of_another_type (B := Sample.runtime)
           (Sample.forecast_service (Some Cases.null_periods))
           (VFloat Sample.lat) (VFloat Sample.lon) Sample.lat Sample.lon []
           (VStr Sample.forecast_at) VNone);
    try reflexivity.
  discriminate.
Defined.

(** X4 at work: ["forecast": null] in the points body. *)
Lemma null_forecast_url_is_a_failed_fetch :
  get_forecast (B := Sample.runtime)
    (Sample.always (Some Cases.null_forecast_url))
    (VFloat Sample.lat) (VFloat Sample.lon) []
  = (Ret unable_to_fetch_periods, [Sample.points_sf; VNone]).
Proof.
  apply (get_forecast_url_not_text (B := Sample.runtime)
           (Sample.always (Some Cases.null_forecast_url))
           (VFloat Sample.lat) (VFloat Sample.lon) Sample.lat Sample.lon [] VNone);
    reflexivity.
Defined.

(** X6 at work: the handler raises, after its one request. *)
Lemma one_request_even_when_raising :
  snd (get_alerts (B := Sample.runtime)
         (Sample.always (Some Sample.null_properties)) "ca" [])
  = [Sample.alerts_ca].
Proof.
  apply (get_alerts_one_request (B := Sample.runtime)
           (Sample.always (Some Sample.null_properties)) "ca" []).
  reflexivity.
Defined.

(** X8 at work: a good feature followed by one with a text for properties. *)
Lemma second_feature_spoils_the_answer :
  get_alerts (B := Sample.runtime) (Sample.always (Some Cases.mixed_features)) "CA" []
  = (Raise AttributeError, [Sample.alerts_ca]).
Proof.
  apply (get_alerts_bad_feature_raises (B := Sample.runtime)
           (Sample.always (Some Cases.mixed_features)) "CA" []
           [("features",
             VList [VDict [("type", VStr "Feature")];
                    VDict [("properties", VStr "none")]])]
           [VDict [("type", VStr "Feature")]; VDict [("properties", VStr "none")]]);
    try reflexivity.
  apply Exists_cons_tl, Exists_cons_hd. reflexivity.
Defined.

(** X9 at work: ["features": 3]. *)
Lemma features_as_a_number_raise :
  exists e,
    get_alerts (B := Sample.runtime)
      (Sample.always (Some (VDict [("features", VInt 3)]))) "CA" []
    = (Raise e, [Sample.alerts_ca]).
Proof.
  apply (get_alerts_features_not_a_list (B := Sample.runtime)
           (Sample.always (Some (VDict [("features", VInt 3)]))) "CA" []
           [("features", VInt 3)] (VInt 3));
    reflexivity.
Defined.

(** X10 at work: the bodies [5], [[1]] and a text that holds "features". *)
Lemma bodies_that_are_no_object :
  get_alerts (B := Sample.runtime) (Sample.always (Some (VInt 5))) "CA" []
    = (Raise TypeError, [Sample.alerts_ca])
  /\
  get_alerts (B := Sample.runtime) (Sample.always (Some (VList [VInt 1]))) "CA" []
    = (Ret unable_to_fetch, [Sample.alerts_ca])
  /\
  get_alerts (B := Sample.runtime)
    (Sample.always (Some (VStr "no features today"))) "CA" []
    = (Raise AttributeError, [Sample.alerts_ca]).
Proof.
  split; [| split].
  - apply (proj1 (get_alerts_body_not_an_object (B := Sample.runtime)
                    (Sample.always (Some (VInt 5))) "CA" [] eq_refl));
      reflexivity.
  - apply (proj1 (proj2 (get_alerts_body_not_an_object (B := Sample.runtime)
                           (Sample.always (Some (VList [VInt 1]))) "CA" [] eq_refl)));
      reflexivity.
  - apply (proj2 (proj2 (get_alerts_body_not_an_object (B := Sample.runtime)
                           (Sample.always (Some (VStr "no features today")))
                           "CA" [] eq_refl)));
      reflexivity.
Defined.

(** X11 at work: [ca] and [CA]. *)
Lemma lower_and_upper_case_agree :
  get_alerts (B := Sample.runtime) (Sample.always (Some Sample.two_alerts)) "ca" []
  = get_alerts (B := Sample.runtime) (Sample.always (Some Sample.two_alerts)) "CA" [].
Proof.
  apply (get_alerts_same_upper_case (B := Sample.runtime)); reflexivity.
Defined.

End WeatherMore.

(* ------------------------------------------------------------------ *)
(** * More on the client *)

Module StrMore.
Import Str StrFacts.
#[local] Arguments is_space : simpl never.

Lemma rstrip_idempotent (s : string) : rstrip (rstrip s) = rstrip s.
Proof.
  induction s as [| c s IH]; [reflexivity |].
  cbn [rstrip]. destruct (rstrip s) as [| c1 r1] eqn:Hr.
  - destruct (is_space c) eqn:Hc; [reflexivity |].
    cbn [rstrip]. rewrite Hc. reflexivity.
  - cbn [rstrip]. cbn [rstrip] in IH. rewrite IH. reflexivity.
Qed.

Lemma rstrip_keeps_head (c : ascii) (s : string) :
  is_space c = false -> rstrip (String c s) = String c (rstrip s).
Proof.
  intros Hc. cbn [rstrip]. rewrite Hc. destruct (rstrip s); reflexivity.
Qed.

Lemma lstrip_fixed (c : ascii) (s : string) :
  is_space c = false -> lstrip (String c s) = String c s.
Proof. intros Hc. cbn [lstrip]. rewrite Hc. reflexivity. Qed.

Lemma prefix_of_append (p r : string) : String.prefix p (p ++ r) = true.
Proof.
  induction p as [| c p IH]; [destruct r; reflexivity |]. cbn.
  destruct (ascii_dec c c); [exact IH | contradiction].
Qed.

Lemma strip_idempotent (s : string) : strip (strip s) = strip s.
Proof.
  unfold strip. destruct (lstrip s) as [| c r] eqn:Hs; [reflexivity |].
  pose proof (lstrip_head s r c Hs) as Hc.
  rewrite (rstrip_keeps_head c r Hc), (lstrip_fixed c _ Hc).
  rewrite <- (rstrip_keeps_head c r Hc). apply rstrip_idempotent.
Qed.

End StrMore.

Module ClientMore.
Import Py Client Startup StrFacts StrMore ClientFacts.

Section Repl.
Context {B : Builtins}.
Variable call_tool : list event -> string -> list (string * value) -> call_outcome.




(** The events of one call: the call itself, then at most one line. *)
Lemma call_and_print_shape (hist : list event) (name : string)
    (arguments : list (string * value)) :
  exists more raised,
    call_and_print call_tool hist name arguments
      = (Called name arguments :: more, raised) /\
    calls_in more = 0.
Proof.
  unfold call_and_print.
  destruct (first_text (call_tool hist name arguments));
    eexists; eexists; (split; [reflexivity | reflexivity]).
Qed.

Lemma calls_in_app (l l' : list event) :
  calls_in (l ++ l') = calls_in l + calls_in l'.
Proof. unfold calls_in. rewrite filter_app, length_app. reflexivity. Qed.

Lemma dispatch_calls_once (q : string) (hist : list event) :
  calls_in (fst (dispatch call_tool q hist)) <= 1.
Proof.
  assert (Hc : forall name arguments,
             calls_in (fst (call_and_print call_tool hist name arguments)) <= 1).
  { intros name arguments.
    destruct (call_and_print_shape hist name arguments) as [more [r [-> Hm]]].
    cbn [fst]. change (Called name arguments :: more)
      with ([Called name arguments] ++ more)%list.
    rewrite calls_in_app, Hm. cbn. lia. }
  unfold dispatch.
  destruct (String.prefix "alerts " q).
  - destruct (unpack2 (Str.split_max1 q)) as [e | [a b]]; [cbn; lia | apply Hc].
  - destruct (String.prefix "forecast " q); [| cbn; lia].
    cbv zeta. destruct (negb _); [cbn; lia |].
    destruct (float_of_str _); [cbn; lia |].
    destruct (float_of_str _); [cbn; lia | apply Hc].
Qed.

Lemma iteration_calls_once (ev : input_event) (hist : list event) :
  calls_in (snd (iteration call_tool ev hist)) <= 1.
Proof.
  destruct ev as [raw | |]; try (cbn; lia).
  unfold iteration. cbv zeta.
  destruct (String.eqb (Str.strip raw) ""); [cbn; lia |].
  destruct (String.eqb (Str.lower (Str.strip raw)) "quit"); [cbn; lia |].
  pose proof (dispatch_calls_once (Str.strip raw) hist) as Hd.
  destruct (dispatch call_tool (Str.strip raw) hist) as [evs [e |]]; cbn [fst] in Hd.
  - destruct (is_Exception e); cbn [snd]; [| exact Hd].
    rewrite calls_in_app. cbn. lia.
  - exact Hd.
Qed.

(** X13.  The loop only adds to the transcript, and it makes at most one
    tool call for each line it reads. *)
Theorem main_loop_transcript (inputs : list input_event) (hist : list event) :
  exists added,
    snd (main_loop call_tool inputs hist) = (hist ++ added)%list /\
    calls_in added <= length inputs.
Proof.
  revert hist. induction inputs as [| ev rest IH]; intros hist.
  - exists [Prompt]. split; [reflexivity | cbn; lia].
  - cbn [main_loop].
    pose proof (iteration_calls_once ev (hist ++ [Prompt])%list) as Hone.
    destruct (iteration call_tool ev (hist ++ [Prompt])%list) as [st evs].
    cbn [snd] in Hone.
    destruct st.
    + destruct (IH ((hist ++ [Prompt]) ++ evs)%list) as [added [Ha Hn]].
      exists ([Prompt] ++ evs ++ added)%list. split.
      * rewrite Ha. rewrite <- !app_assoc. reflexivity.
      * rewrite !calls_in_app. cbn [length]. change (calls_in [Prompt]) with 0. lia.
    + exists ([Prompt] ++ evs)%list. split.
      * cbn [snd]. rewrite <- app_assoc. reflexivity.
      * rewrite calls_in_app. cbn [length]. change (calls_in [Prompt]) with 0. lia.
    + exists ([Prompt] ++ evs)%list. split.
      * cbn [snd]. rewrite <- app_assoc. reflexivity.
      * rewrite calls_in_app. cbn [length]. change (calls_in [Prompt]) with 0. lia.
Qed.

Lemma main_loop_stops_here (inputs rest : list input_event) (hist : list event) :
  fst (main_loop call_tool inputs hist) <> AwaitingInput ->
  main_loop call_tool (inputs ++ rest) hist = main_loop call_tool inputs hist.
Proof.
  revert hist. induction inputs as [| ev inputs IH]; intros hist H.
  - contradiction H. reflexivity.
  - cbn [app main_loop]. cbn [main_loop] in H.
    destruct (iteration call_tool ev (hist ++ [Prompt])%list) as [st evs].
    destruct st; [apply IH; exact H | reflexivity | reflexivity].
Qed.

(** X14.  Once the loop has closed or was left by an exception, nothing
    that follows in the input is read: the outcome is the same whatever
    the later lines are. *)
Theorem main_loop_stops_reading (inputs rest : list input_event) (hist : list event) :
  fst (main_loop call_tool inputs hist) <> AwaitingInput ->
  main_loop call_tool (inputs ++ rest) hist = main_loop call_tool inputs hist
  /\ forall more,
       main_loop call_tool (inputs ++ rest) hist
       = main_loop call_tool (inputs ++ more) hist.
Proof.
  intros H. split.
  - apply main_loop_stops_here. exact H.
  - intros more. rewrite !main_loop_stops_here by exact H. reflexivity.
Qed.


Lemma alerts_line_dispatch (raw rest : string) (hist : list event) :
  Str.strip raw = "alerts " ++ rest ->
  iteration call_tool (Line raw) hist =
  match call_and_print call_tool hist "get_alerts" [("state", VStr (Str.lstrip rest))] with
  | (evs, None) => (AwaitingInput, evs)
  | (evs, Some e) =>
      if is_Exception e
      then (AwaitingInput, (evs ++ [Printed ("Error: " ++ message e)])%list)
      else (Aborted, evs)
  end.
Proof.
  intros Hq.
  assert (Hp : String.prefix "alerts " (Str.strip raw) = true).
  { rewrite Hq. apply prefix_of_append. }
  assert (Hne : Str.strip raw <> "").
  { rewrite Hq. discriminate. }
  rewrite (iteration_dispatches call_tool raw hist Hne
             (lower_not_quit _ _ Hp ltac:(cbn; lia))).
  unfold dispatch. rewrite Hp. rewrite Hq at 1.
  rewrite (split_max1_alerts rest (stripped_rest raw "alerts" rest Hq)).
  reflexivity.
Qed.

(** X15.  Of the answer to a call only the first block counts: its text is
    printed as it is and further blocks are dropped; an answer without
    blocks prints [Error: list index out of range], and a first block
    that is no text prints the error of its missing attribute.  The
    client stays in [AwaitingInput] in all three cases. *)
Theorem first_block_is_what_is_printed (raw rest : string) (hist : list event) :
  Str.strip raw = "alerts " ++ rest ->
  let arguments := [("state", VStr (Str.lstrip rest))] in
  let answer := call_tool hist "get_alerts" arguments in
  (forall text blocks,
     answer = Returned (TextContent text :: blocks) ->
     iteration call_tool (Line raw) hist =
     (AwaitingInput, [Called "get_alerts" arguments; Printed text]))
  /\
  (answer = Returned [] ->
   iteration call_tool (Line raw) hist =
   (AwaitingInput,
    [Called "get_alerts" arguments; Printed "Error: list index out of range"]))
  /\
  (forall class_name blocks,
     answer = Returned (OtherContent class_name :: blocks) ->
     iteration call_tool (Line raw) hist =
     (AwaitingInput,
      [Called "get_alerts" arguments;
       Printed ("Error: '" ++ class_name ++ "' object has no attribute 'text'")])).
Proof.
  intros Hq arguments answer. rewrite (alerts_line_dispatch raw rest hist Hq).
  unfold call_and_print. fold arguments. fold answer.
  split; [| split].
  - intros text blocks ->. reflexivity.
  - intros ->. reflexivity.
  - intros class_name blocks ->. reflexivity.
Qed.


(** X17.  A [forecast] line of three tokens whose last two convert is
    forwarded as one call of [get_forecast] with the two numbers, however
    much whitespace separates the tokens. *)
Theorem forecast_numbers_are_forwarded (raw word a b : string)
    (lat lon : PrimFloat.float) (hist : list event) :
  String.prefix "forecast " (Str.strip raw) = true ->
  Str.split (Str.strip raw) = [word; a; b] ->
  float_of_str a = inr lat ->
  float_of_str b = inr lon ->
  exists next more,
    iteration call_tool (Line raw) hist =
    (next,
     Called "get_forecast" [("latitude", VFloat lat); ("longitude", VFloat lon)]
       :: more) /\
    calls_in more = 0.
Proof.
  intros Hp Hs Ha Hb.
  assert (Hne : Str.strip raw <> "").
  { intros E. rewrite E in Hp. discriminate. }
  rewrite (iteration_dispatches call_tool raw hist Hne
             (lower_not_quit _ _ Hp ltac:(cbn; lia))).
  unfold dispatch. rewrite (forecast_is_not_alerts _ Hp), Hp. cbv zeta.
  rewrite Hs. cbn [length Nat.eqb negb nth]. rewrite Ha, Hb.
  destruct (call_and_print_shape hist "get_forecast"
              [("latitude", VFloat lat); ("longitude", VFloat lon)])
    as [more [r [-> Hm]]].
  destruct r as [e |]; [destruct (is_Exception e) |]; eexists; eexists;
    (split; [reflexivity |]); try exact Hm.
  rewrite calls_in_app, Hm. reflexivity.
Qed.

(** X18.  Whitespace around a line makes no difference: an iteration
    treats a line and the stripped line alike. *)
Theorem surrounding_whitespace_is_ignored (raw : string) (hist : list event) :
  iteration call_tool (Line raw) hist
  = iteration call_tool (Line (Str.strip raw)) hist.
Proof. unfold iteration. rewrite strip_idempotent. reflexivity. Qed.

(** X19.  The client never calls a tool other than [get_alerts], with one
    argument [state] that is a string, and [get_forecast], with the two
    arguments [latitude] and [longitude] that are floats. *)
Theorem only_the_two_tools_are_called (ev : input_event) (hist : list event)
    (name : string) (arguments : list (string * value)) :
  In (Called name arguments) (snd (iteration call_tool ev hist)) ->
  (name = "get_alerts" /\ exists state, arguments = [("state", VStr state)]) \/
  (name = "get_forecast" /\
   exists lat lon, arguments = [("latitude", VFloat lat); ("longitude", VFloat lon)]).
Proof.
  assert (Hc : forall n args r,
             In (Called name arguments)
                (fst (call_and_print call_tool hist n args) ++ r) ->
             (forall x, In x r -> is_call x = false) ->
             name = n /\ arguments = args).
  { intros n args r Hin Hr. unfold call_and_print in Hin.
    apply in_app_or in Hin. destruct Hin as [Hin | Hin].
    - destruct (first_text (call_tool hist n args)); cbn in Hin;
        repeat destruct Hin as [Hin | Hin]; try discriminate; try contradiction;
        injection Hin as <- <-; auto.
    - discriminate (Hr _ Hin). }
  assert (Hd : forall q r,
             In (Called name arguments) (fst (dispatch call_tool q hist) ++ r) ->
             (forall x, In x r -> is_call x = false) ->
             (name = "get_alerts" /\ exists state, arguments = [("state", VStr state)]) \/
             (name = "get_forecast" /\
              exists lat lon,
                arguments = [("latitude", VFloat lat); ("longitude", VFloat lon)])).
  { intros q r. unfold dispatch.
    assert (Hnone : forall l : list event,
               (forall x, In x l -> is_call x = false) ->
               In (Called name arguments) l -> False).
    { intros l Hl Hin. discriminate (Hl _ Hin). }
    destruct (String.prefix "alerts " q).
    - destruct (unpack2 (Str.split_max1 q)) as [e | [a b]].
      + intros Hin Hr. destruct (Hnone r Hr Hin).
      + intros Hin Hr. destruct (Hc _ _ _ Hin Hr) as [-> ->]. left. eauto.
    - destruct (String.prefix "forecast " q).
      + cbv zeta. destruct (negb _).
        * intros Hin Hr. destruct Hin as [Hin | Hin]; [discriminate |].
          destruct (Hnone r Hr Hin).
        * destruct (float_of_str _) as [msg | lat];
            [intros Hin Hr; destruct (Hnone r Hr Hin) |].
          destruct (float_of_str _) as [msg | lon];
            [intros Hin Hr; destruct (Hnone r Hr Hin) |].
          intros Hin Hr. destruct (Hc _ _ _ Hin Hr) as [-> ->]. right. eauto.
      + intros Hin Hr. destruct Hin as [Hin | Hin]; [discriminate |].
        destruct (Hnone r Hr Hin). }
  destruct ev as [raw | |]; try (intros []).
  unfold iteration. cbv zeta.
  destruct (String.eqb (Str.strip raw) ""); [intros [] |].
  destruct (String.eqb (Str.lower (Str.strip raw)) "quit"); [intros [] |].
  pose proof (Hd (Str.strip raw)) as Hq.
  destruct (dispatch call_tool (Str.strip raw) hist) as [evs [e |]]; cbn [fst] in Hq.
  - destruct (is_Exception e); cbn [snd]; intros Hin.
    + apply (Hq _ Hin). intros x [<- | []]. reflexivity.
    + apply (Hq []); [rewrite app_nil_r; exact Hin | intros x []].
  - cbn [snd]. intros Hin.
    apply (Hq []); [rewrite app_nil_r; exact Hin | intros x []].
Qed.


Section Main.
Variable connect : string -> list string -> raised + list string.

(** X20.  Without a script on the command line [main] prints its usage
    and exits with status 1, launching nothing.  With one, only
    [sys.argv[1]] matters: the server is launched as [python <script>]
    and further arguments are ignored; when the connection fails [main]
    fails before any prompt. *)
Theorem main_startup (argv : list string) (inputs : list input_event) :
  (length argv < 2 ->
   main connect call_tool argv inputs = (Exited 1, [Seen (Printed main_usage)]))
  /\
  (forall program script more,
     argv = program :: script :: more ->
     main connect call_tool argv inputs
     = main connect call_tool ["client.py"; script] inputs)
  /\
  (forall program script more e,
     argv = program :: script :: more ->
     connect "python" [script] = inl e ->
     main connect call_tool argv inputs = (Failed, [Launched "python" [script]])).
Proof.
  split; [| split].
  - intros H. unfold main. apply Nat.ltb_lt in H. rewrite H. reflexivity.
  - intros program script more ->. reflexivity.
  - intros program script more e -> Hc. unfold main. cbn. rewrite Hc. reflexivity.
Qed.


End Main.

End Repl.

(** ** Runs *)

(** X12 at work: four lines against a server that always fails. *)
Lemma failing_server_keeps_the_client_waiting :
  fst (main_loop (B := Sample.runtime) (Sample.broken_session "Connection closed")
         [Line "alerts CA"; Line ""; Line "forecast north 1"; Line "help"] [])
  = AwaitingInput.
Proof.
  apply (main_loop_stays_open (B := Sample.runtime)
           (Sample.broken_session "Connection closed")).
  - intros h name arguments e H. injection H as <-. reflexivity.
  - repeat constructor; eexists; (split; [reflexivity | vm_compute; discriminate]).
Defined.

(** X14 at work: the line after [quit]. *)
Lemma nothing_is_read_after_quit :
  main_loop (B := Sample.runtime) (Sample.session "ok")
    ([Line "help"; Line "quit"] ++ [Line "alerts CA"]) []
  = main_loop (B := Sample.runtime) (Sample.session "ok") [Line "help"; Line "quit"] [].
Proof.
  apply (main_loop_stops_reading (B := Sample.runtime) (Sample.session "ok")
           [Line "help"; Line "quit"] [Line "alerts CA"] []).
  vm_compute. discriminate.
Defined.

(** X15 at work: two blocks, no block, and an image. *)
Lemma only_the_first_block_is_shown :
  iteration (B := Sample.runtime) Scripts.two_block_session (Line " alerts  CA ") []
    = (AwaitingInput, [Called "get_alerts" [("state", VStr "CA")]; Printed "first"])
  /\
  iteration (B := Sample.runtime) Scripts.empty_session (Line "alerts CA") []
    = (AwaitingInput,
       [Called "get_alerts" [("state", VStr "CA")];
        Printed "Error: list index out of range"])
  /\
  iteration (B := Sample.runtime) Scripts.image_session (Line "alerts CA") []
    = (AwaitingInput,
       [Called "get_alerts" [("state", VStr "CA")];
        Printed "Error: 'ImageContent' object has no attribute 'text'"]).
Proof.
  split; [| split].
  - apply (proj1 (first_block_is_what_is_printed (B := Sample.runtime)
                    Scripts.two_block_session " alerts  CA " " CA" [] eq_refl)
             "first" [TextContent "second"]).
    reflexivity.
  - apply (proj1 (proj2 (first_block_is_what_is_printed (B := Sample.runtime)
                           Scripts.empty_session "alerts CA" "CA" [] eq_refl))).
    reflexivity.
  - apply (proj2 (proj2 (first_block_is_what_is_printed (B := Sample.runtime)
                           Scripts.image_session "alerts CA" "CA" [] eq_refl))
             "ImageContent" []).
    reflexivity.
Defined.


(** X17 at work: the coordinates of the usage note, widely spaced. *)
Lemma spaced_coordinates_are_forwarded :
  exists next more,
    iteration (B := Sample.runtime) (Sample.session "ok")
      (Line "forecast   37.78    -122.42 ") []
    = (next,
       Called "get_forecast"
         [("latitude", VFloat Sample.lat); ("longitude", VFloat Sample.lon)] :: more)
    /\ calls_in more = 0.
Proof.
  apply (forecast_numbers_are_forwarded (B := Sample.runtime) (Sample.session "ok")
           "forecast   37.78    -122.42 " "forecast" "37.78" "-122.42"
           Sample.lat Sample.lon []);
    reflexivity.
Defined.

(** X19 at work: the call an alerts line makes. *)
Lemma the_call_of_an_alerts_line :
  In (Called "get_alerts" [("state", VStr "CA")])
     (snd (iteration (B := Sample.runtime) (Sample.session "ok") (Line "alerts CA") []))
  /\
  (("get_alerts" = "get_alerts" /\
    exists state, [("state", VStr "CA")] = [("state", VStr state)])
   \/
   ("get_alerts" = "get_forecast" /\
    exists lat lon,
      [("state", VStr "CA")] = [("latitude", VFloat lat); ("longitude", VFloat lon)])).
Proof.
  split; [left; reflexivity |].
  apply (only_the_two_tools_are_called (B := Sample.runtime) (Sample.session "ok")
           (Line "alerts CA") []).
  left. reflexivity.
Defined.

(** X20 at work: no script, a surplus argument, a refused connection. *)
Lemma missing_script_and_refused_connection :
  main (B := Sample.runtime) Scripts.connected (Sample.session "ok")
    ["client.py"] [Line "alerts CA"]
    = (Exited 1, [Seen (Printed main_usage)])
  /\
  main (B := Sample.runtime) Scripts.connected (Sample.session "ok")
    ["client.py"; "weather.py"; "--verbose"] [Line "quit"]
    = main (B := Sample.runtime) Scripts.connected (Sample.session "ok")
        ["client.py"; "weather.py"] [Line "quit"]
  /\
  main (B := Sample.runtime) Scripts.refused (Sample.session "ok")
    ["client.py"; "weather.py"] [Line "alerts CA"]
    = (Failed, [Launched "python" ["weather.py"]]).
Proof.
  split; [| split].
  - apply (proj1 (main_startup (B := Sample.runtime) (Sample.session "ok")
                    Scripts.connected ["client.py"] [Line "alerts CA"])).
    cbn. lia.
  - apply (proj1 (proj2 (main_startup (B := Sample.runtime) (Sample.session "ok")
                           Scripts.connected
                           ["client.py"; "weather.py"; "--verbose"] [Line "quit"]))
             "client.py" "weather.py" ["--verbose"]).
    reflexivity.
  - apply (proj2 (proj2 (main_startup (B := Sample.runtime) (Sample.session "ok")
                           Scripts.refused
                           ["client.py"; "weather.py"] [Line "alerts CA"]))
             "client.py" "weather.py" [] (error "Connection closed"));
      reflexivity.
Defined.


End ClientMore.
